(** * Regulatory-news dashboard ([app.py]): filtering and aggregation core

    A shallow embedding of the data-processing parts of [app.py] (the
    snapshot loader and the header label, the sidebar defaults and the
    filter, the key metrics, the market summary and the median ranking, the
    category cross-tabulation, the map records, the curated article table
    and the run as a whole), with the pandas and Python primitives they
    call.  The calls that only draw a chart are not modelled.

    Conventions.
    - A pandas frame is the list of its rows, in row order.  Row labels
      (the pandas index) are not modelled: no modelled operation reads them.
    - Python text is [string], one character per code point below 256.
      White space is Python's on that range.  The case mappings change the
      letters A-Z and a-z only; the other letters of the range lowercase to
      letters that the title pattern removes as well, so normalised titles
      are those of the code on the whole range.
    - [relevance_score] is an integer ([Z]); means are exact rationals
      ([Q]) where pandas computes the nearest double.
    - A raised Python exception is a value [Raise e] of the [result] type;
      an exception that nothing catches ends the script run. *)

From Stdlib Require Import List String Ascii Bool Arith ZArith QArith Lia.
From Stdlib Require Import DecimalString Qabs.
From Stdlib Require Import Permutation Sorted.
Import ListNotations.

Close Scope Q_scope.
Open Scope string_scope.
Open Scope list_scope.

(** ** Python runtime: exceptions and results *)

Module Py.

Inductive exn : Type :=
| IndexError
| KeyError (key : string)
| ZeroDivisionError.

(** The class name of an exception, as a traceback prints it. *)
Definition exn_name (e : exn) : string :=
  match e with
  | IndexError => "IndexError"
  | KeyError _ => "KeyError"
  | ZeroDivisionError => "ZeroDivisionError"
  end.

Inductive result (A : Type) : Type :=
| Ok (a : A)
| Raise (e : exn).
Arguments Ok {A} a.
Arguments Raise {A} e.

Definition bind {A B} (m : result A) (k : A -> result B) : result B :=
  match m with
  | Ok a => k a
  | Raise e => Raise e
  end.

Definition is_ok {A} (m : result A) : bool :=
  match m with Ok _ => true | Raise _ => false end.

(** [x in xs] on a list of strings. *)
Definition contains (xs : list string) (x : string) : bool :=
  existsb (String.eqb x) xs.

(** [xs[-k]] for [k >= 1]: the [k]-th item from the end. *)
Definition item_from_end {A} (xs : list A) (k : nat) : result A :=
  match k with
  | O => Raise IndexError
  | S j => match nth_error (rev xs) j with
           | Some x => Ok x
           | None => Raise IndexError
           end
  end.

(** [xs[0]]. *)
Definition first_item {A} (xs : list A) : result A :=
  match xs with
  | [] => Raise IndexError
  | x :: _ => Ok x
  end.

(** [d[k]] on a dict given as its items. *)
Fixpoint getitem {V} (d : list (string * V)) (k : string) : result V :=
  match d with
  | [] => Raise (KeyError k)
  | (k', v) :: rest => if String.eqb k k' then Ok v else getitem rest k
  end.

(** A loop or comprehension that collects one result per item and stops at
    the first exception. *)
Fixpoint for_each {A B} (body : A -> result B) (items : list A) : result (list B) :=
  match items with
  | [] => Ok []
  | x :: rest =>
      bind (body x) (fun y => bind (for_each body rest) (fun ys => Ok (y :: ys)))
  end.

(** [a / b] on two [int]s: true division. *)
Definition truediv (a b : nat) : result Q :=
  match b with
  | O => Raise ZeroDivisionError
  | S _ => Ok (Qmake (Z.of_nat a) (Pos.of_nat b))
  end.

(** *** [str] methods and character classes *)

Definition code (c : ascii) : N := N_of_ascii c.

Definition between (lo hi : N) (c : ascii) : bool :=
  (lo <=? code c)%N && (code c <=? hi)%N.

Definition is_upper (c : ascii) : bool := between 65 90 c.
Definition is_lower (c : ascii) : bool := between 97 122 c.
Definition is_digit (c : ascii) : bool := between 48 57 c.

(** The class [\s] of Python's [re] on [str] patterns, among the code
    points below 256: tab, line feed, vertical tab, form feed, carriage
    return, the four separators 0x1c-0x1f, space, next line (U+0085) and
    no-break space (U+00A0).  It is the engine that pandas applies to the
    object-dtype text that [pd.read_json] returns. *)
Definition is_space (c : ascii) : bool :=
  between 9 13 c || between 28 31 c || (code c =? 32)%N
  || (code c =? 133)%N || (code c =? 160)%N.

Definition char_lower (c : ascii) : ascii :=
  if is_upper c then ascii_of_N (code c + 32) else c.

Definition char_upper (c : ascii) : ascii :=
  if is_lower c then ascii_of_N (code c - 32) else c.

Fixpoint str_map (f : ascii -> ascii) (s : string) : string :=
  match s with
  | EmptyString => EmptyString
  | String c s' => String (f c) (str_map f s')
  end.

Fixpoint str_filter (keep : ascii -> bool) (s : string) : string :=
  match s with
  | EmptyString => EmptyString
  | String c s' => if keep c then String c (str_filter keep s') else str_filter keep s'
  end.

(** [s.lower()], on the letters A-Z. *)
Definition lower (s : string) : string := str_map char_lower s.

(** [s.replace(a, b)] for one-character [a] and [b]. *)
Definition replace_char (a b : ascii) (s : string) : string :=
  str_map (fun c => if Ascii.eqb c a then b else c) s.

(** [s.title()]: a letter that follows a letter is lowercased, any other
    letter is uppercased. *)
Fixpoint title_from (after_letter : bool) (s : string) : string :=
  match s with
  | EmptyString => EmptyString
  | String c s' =>
      String (if after_letter then char_lower c else char_upper c)
             (title_from (is_upper c || is_lower c) s')
  end.

Definition title_case (s : string) : string := title_from false s.

(** [s.endswith(suffix)]. *)
Definition endswith (suffix s : string) : bool :=
  (String.length suffix <=? String.length s)%nat
  && String.eqb (substring (String.length s - String.length suffix)
                           (String.length suffix) s) suffix.

(** [s.split(sep)] for a one-character [sep]. *)
Fixpoint split (sep : ascii) (s : string) : list string :=
  match s with
  | EmptyString => [EmptyString]
  | String c s' =>
      if Ascii.eqb c sep then EmptyString :: split sep s'
      else match split sep s' with
           | [] => [String c EmptyString]
           | w :: ws => String c w :: ws
           end
  end.

(** [s.rfind(c)]: the position of the last [c], if any. *)
Fixpoint rfind (c : ascii) (s : string) : option nat :=
  match s with
  | EmptyString => None
  | String d s' =>
      match rfind c s' with
      | Some i => Some (S i)
      | None => if Ascii.eqb d c then Some 0 else None
      end
  end.

(** [str(n)] for an [int] that is not negative. *)
Definition str_of_nat (n : nat) : string :=
  NilZero.string_of_uint (Nat.to_uint n).

(** [PurePath.stem]: the name without its last suffix; a leading or a
    trailing dot does not start a suffix. *)
Definition stem (name : string) : string :=
  match rfind "." name with
  | Some i =>
      if (0 <? i)%nat && (i <? String.length name - 1)%nat
      then substring 0 i name else name
  | None => name
  end.

(** Stable sorting ([sorted], [list.sort], and the stable pandas sorts),
    by insertion: [leb a b] says that [a] may stay before [b]. *)
Section Sorting.
Context {A : Type} (leb : A -> A -> bool).

Fixpoint insert (x : A) (l : list A) : list A :=
  match l with
  | [] => [x]
  | y :: l' => if leb x y then x :: l else y :: insert x l'
  end.

Fixpoint sorted (l : list A) : list A :=
  match l with
  | [] => []
  | x :: l' => insert x (sorted l')
  end.
End Sorting.

End Py.
Export Py.

Declare Scope py_scope.
Delimit Scope py_scope with py.
Notation "x <- m ;; k" := (Py.bind m (fun x => k))
  (at level 61, m at next level, right associativity) : py_scope.

(** ** Data model *)

Record Article : Type := mkArticle {
  title : string;
  publishedAt : Z;                         (* a timestamp, in epoch nanoseconds *)
  market_name : string;
  category : string;
  relevance_score : Z;
  impact_level : string;
  key_regulators : option (list string);   (* [None]: the cell is not a list *)
  source_name : string;
  what_happened : string
}.

Definition DataFrame : Type := list Article.

(** The sidebar widgets' values. *)
Record FilterState : Type := mkFilter {
  selected_markets : list string;
  min_relevance : Z;
  selected_categories : list string;
  selected_impact : list string
}.

(** ** pandas primitives *)

Module Pd.

(** [series.isin(values)] for one cell. *)
Definition isin (values : list string) (x : string) : bool :=
  Py.contains values x.

(** [df.drop_duplicates(subset=key, keep='first')]: a row is kept when no
    earlier row has its key. *)
Section DropDuplicates.
Context {A : Type} (key : A -> string).

Fixpoint drop_duplicates_from (seen : list string) (rows : list A) : list A :=
  match rows with
  | [] => []
  | r :: rest =>
      if Py.contains seen (key r) then drop_duplicates_from seen rest
      else r :: drop_duplicates_from (key r :: seen) rest
  end.

Definition drop_duplicates (rows : list A) : list A :=
  drop_duplicates_from [] rows.

End DropDuplicates.

(** [series.unique()]: the distinct values in order of first appearance. *)
Definition unique (xs : list string) : list string :=
  drop_duplicates (fun x => x) xs.

Definition nunique (xs : list string) : nat := List.length (unique xs).

(** The group keys of [groupby] and the labels of [crosstab]: the distinct
    values, sorted. *)
Definition group_keys (xs : list string) : list string :=
  Py.sorted String.leb (unique xs).

Definition sum_Z (xs : list Z) : Z := fold_right Z.add 0%Z xs.
Definition sum_nat (xs : list nat) : nat := fold_right Nat.add 0 xs.

(** [series.mean()]: [None] stands for NaN, the mean of no value. *)
Definition mean (xs : list Z) : option Q :=
  match xs with
  | [] => None
  | _ :: _ => Some (Qmake (sum_Z xs) (Pos.of_nat (List.length xs)))
  end.

(** [sort_values(by, ascending=False)] on a count column.  pandas leaves
    the order of rows with equal counts to the sorting algorithm; here they
    keep their order. *)
Definition sort_desc {A} (by_ : A -> nat) (rows : list A) : list A :=
  Py.sorted (fun a b => (by_ b <=? by_ a)%nat) rows.

(** [df.nlargest(n, column)] with the default [keep='first']: the [n] first
    rows of the frame sorted by the column, largest first, ties in row order. *)
Definition nlargest {A} (n : nat) (column : A -> Z) (rows : list A) : list A :=
  firstn n (Py.sorted (fun a b => (column b <=? column a)%Z) rows).

(** [Counter(xs)]: the items with their counts, in order of first
    appearance; also the unsorted [value_counts]. *)
Fixpoint counter_add (x : string) (c : list (string * nat)) : list (string * nat) :=
  match c with
  | [] => [(x, 1)]
  | (k, n) :: rest =>
      if String.eqb x k then (k, S n) :: rest else (k, n) :: counter_add x rest
  end.

Definition Counter (xs : list string) : list (string * nat) :=
  fold_left (fun c x => counter_add x c) xs [].

(** [series.value_counts()]: most frequent first. *)
Definition value_counts (xs : list string) : list (string * nat) :=
  sort_desc snd (Counter xs).

(** [Counter.most_common(1)]: the first item with the largest count. *)
Fixpoint first_max (best : string * nat) (items : list (string * nat)) : string * nat :=
  match items with
  | [] => best
  | kv :: rest => if (snd best <? snd kv)%nat then first_max kv rest else first_max best rest
  end.

Definition most_common_1 (c : list (string * nat)) : list (string * nat) :=
  match c with
  | [] => []
  | kv :: rest => [first_max kv rest]
  end.

(** Rounding to the nearest integer, halves to the even one. *)
Definition round_half_even (q : Q) : Z :=
  let n := Qnum q in
  let d := Zpos (Qden q) in
  let f := (n / d)%Z in
  match (2 * (n mod d) ?= d)%Z with
  | Lt => f
  | Gt => (f + 1)%Z
  | Eq => if Z.even f then f else (f + 1)%Z
  end.

(** [round(x, 1)], on the exact mean. *)
Definition round1 (x : option Q) : option Q :=
  match x with
  | Some q => Some (Qmake (round_half_even (q * 10)%Q) 10)
  | None => None
  end.

End Pd.

(** ** The snapshot loader ([load_data]) *)

(** [fnmatch] of a file name against [analyzed_articles_*.json]. *)
Definition glob_match (name : string) : bool :=
  String.prefix "analyzed_articles_" name
  && endswith ".json" name
  && (String.length "analyzed_articles_" + String.length ".json" <=? String.length name)%nat.

(** [processed_dir.glob('analyzed_articles_*.json')] on the directory
    given by its entries' names. *)
Definition glob (dir : list string) : list string :=
  List.filter glob_match dir.

(** [sorted(...)[-1]].  Paths of one directory compare as their names. *)
Definition latest_file (dir : list string) : result string :=
  item_from_end (sorted String.leb (glob dir)) 1.

Section Loader.

(** [pd.read_json] followed by the [publishedAt] conversion, per file. *)
Variable read_json : string -> result DataFrame.

Definition load_data (dir : list string) : result (DataFrame * string) :=
  (f <- latest_file dir ;;
   df <- read_json f ;;
   date <- item_from_end (split "_" (stem f)) 2 ;;
   time <- item_from_end (split "_" (stem f)) 1 ;;
   Ok (df, (date ++ "_" ++ time)%string))%py.

End Loader.

(** ** The filter ([app.py], "Apply filters") *)

Definition filter_mask (fs : FilterState) (r : Article) : bool :=
  Pd.isin (selected_markets fs) (market_name r)
  && (min_relevance fs <=? relevance_score r)%Z
  && Pd.isin (selected_categories fs) (category r)
  && Pd.isin (selected_impact fs) (impact_level r).

Definition df_filtered (fs : FilterState) (df : DataFrame) : DataFrame :=
  List.filter (filter_mask fs) df.

(** ** Key insights: the four [st.metric] cards *)

(** What a card shows under its value. *)
Inductive Delta : Type :=
| PctOfTotal (pct : Q)        (* f"{pct:.0f}% of total" *)
| PctOfFiltered (pct : Q)     (* f"{pct:.0f}% of filtered" *)
| OutOf5                      (* "out of 5" *)
| NoDelta.

Inductive MetricValue : Type :=
| IntValue (n : nat)
| ScoreValue (avg : option Q).  (* f"{avg:.1f}/10"; [None] prints "nan/10" *)

Record Metric : Type := mkMetric {
  label : string;
  value : MetricValue;
  delta : Delta
}.

(** A script fragment: it appends to the cards shown so far, and either
    finishes or stops at an exception (what was shown stays shown). *)
Definition Script (A : Type) : Type := list Metric -> list Metric * result A.

Definition lift {A} (m : result A) : Script A := fun shown => (shown, m).

Definition st_metric (m : Metric) : Script unit :=
  fun shown => (shown ++ [m], Ok tt).

Definition sbind {A B} (m : Script A) (k : A -> Script B) : Script B :=
  fun shown =>
    match m shown with
    | (shown', Ok a) => k a shown'
    | (shown', Raise e) => (shown', Raise e)
    end.

Notation "x <~ m ;; k" := (sbind m (fun x => k))
  (at level 61, m at next level, right associativity) : py_scope.
Notation "m ;;; k" := (sbind m (fun _ => k))
  (at level 61, right associativity) : py_scope.

Definition is_high (r : Article) : bool := String.eqb (impact_level r) "high".

Definition key_insights (df df_filtered : DataFrame) : Script unit :=
  (ratio <~ lift (truediv (List.length df_filtered) (List.length df)) ;;
   st_metric (mkMetric "Total Articles" (IntValue (List.length df_filtered))
                       (PctOfTotal (ratio * 100)%Q)) ;;;
   st_metric (mkMetric "Avg Relevance Score"
                       (ScoreValue (Pd.mean (map relevance_score df_filtered)))
                       NoDelta) ;;;
   let high_impact := List.length (List.filter is_high df_filtered) in
   share <~ lift (truediv high_impact (List.length df_filtered)) ;;
   st_metric (mkMetric "High Impact Articles" (IntValue high_impact)
                       (PctOfFiltered (share * 100)%Q)) ;;;
   let markets_covered := Pd.nunique (map market_name df_filtered) in
   st_metric (mkMetric "Markets Covered" (IntValue markets_covered) OutOf5))%py.

(** ** Market overview (tab 1) *)

Definition in_market (m : string) (r : Article) : bool :=
  String.eqb (market_name r) m.

Module Overview.

Record row : Type := mk {
  market : string;
  article_count : nat;
  avg_relevance : option Q
}.

End Overview.

(** [groupby('market_name').agg({'relevance_score': ['count', 'mean']})],
    one row per market present, in key order. *)
Definition market_groups (df_filtered : DataFrame) : list Overview.row :=
  map (fun m =>
         let scores := map relevance_score (List.filter (in_market m) df_filtered) in
         Overview.mk m (List.length scores) (Pd.mean scores))
      (Pd.group_keys (map market_name df_filtered)).

Definition market_overview (df_filtered : DataFrame) : list Overview.row :=
  Pd.sort_desc Overview.article_count (market_groups df_filtered).

(** [COLORS['markets']]. *)
Definition market_colors : list (string * string) :=
  [("United States", "#2C8C99"); ("Japan", "#E76F51"); ("United Kingdom", "#F4A261");
   ("Germany", "#5D6D7E"); ("France", "#9B59B6")].

(** The bar colours of the first chart:
    [[COLORS['markets'][m] for m in market_overview['market']]]. *)
Definition marker_color (df_filtered : DataFrame) : result (list string) :=
  Py.for_each (getitem market_colors) (map Overview.market (market_overview df_filtered)).

(** ** Categories by market (tab 2) *)

(** A frame of counts: row labels, column labels, and one list of cells per
    row, aligned with the columns. *)
Record CountFrame : Type := mkCounts {
  index : list string;
  columns : list string;
  cells : list (list nat)
}.

Definition cell_count (df : DataFrame) (m c : string) : nat :=
  List.length (List.filter (fun r => in_market m r && String.eqb (category r) c) df).

(** [pd.crosstab(df['market_name'], df['category'])]. *)
Definition crosstab (df : DataFrame) : CountFrame :=
  let ms := Pd.group_keys (map market_name df) in
  let cs := Pd.group_keys (map category df) in
  mkCounts ms cs (map (fun m => map (cell_count df m) cs) ms).

(** [ct.loc[ct.sum(axis=1).sort_values(ascending=False).index]]: the rows,
    largest row total first. *)
Definition by_row_total (ct : CountFrame) : CountFrame :=
  let rows := Pd.sort_desc (fun r => Pd.sum_nat (snd r)) (combine (index ct) (cells ct)) in
  mkCounts (map fst rows) (columns ct) (map snd rows).

(** The position of a column label; a label that is not there is a [KeyError]. *)
Fixpoint get_loc (cols : list string) (c : string) : result nat :=
  match cols with
  | [] => Raise (KeyError c)
  | c' :: rest =>
      if String.eqb c c' then Ok 0
      else (i <- get_loc rest c ;; Ok (S i))%py
  end.

(** [ct[c]]: a column's cells. *)
Definition get_column (ct : CountFrame) (c : string) : result (list nat) :=
  (i <- get_loc (columns ct) c ;; Ok (map (fun row => nth i row 0) (cells ct)))%py.

Fixpoint set_nth {A} (i : nat) (v : A) (l : list A) : list A :=
  match l, i with
  | [], _ => []
  | _ :: l', O => v :: l'
  | x :: l', S j => x :: set_nth j v l'
  end.

Fixpoint remove_nth {A} (i : nat) (l : list A) : list A :=
  match l, i with
  | [], _ => []
  | _ :: l', O => l'
  | x :: l', S j => x :: remove_nth j l'
  end.

(** [ct[c] = values]: replaces the column where it stands, or adds it last. *)
Definition set_column (ct : CountFrame) (c : string) (values : list nat) : CountFrame :=
  match get_loc (columns ct) c with
  | Ok i =>
      mkCounts (index ct) (columns ct)
               (map (fun rv => set_nth i (snd rv) (fst rv)) (combine (cells ct) values))
  | Raise _ =>
      mkCounts (index ct) (columns ct ++ [c])
               (map (fun rv => fst rv ++ [snd rv]) (combine (cells ct) values))
  end.

(** [ct.drop(columns=[c])]. *)
Definition drop_column (ct : CountFrame) (c : string) : result CountFrame :=
  (i <- get_loc (columns ct) c ;;
   Ok (mkCounts (index ct) (remove_nth i (columns ct)) (map (remove_nth i) (cells ct))))%py.

(** Series addition, cell by cell (both series carry the frame's index). *)
Definition add_columns (a b : list nat) : list nat :=
  map (fun p => fst p + snd p) (combine a b).

(** "Combine cross_border with other". *)
Definition combine_cross_border (ct : CountFrame) : result CountFrame :=
  if Py.contains (columns ct) "cross_border_investment" then
    (other <- get_column ct "other" ;;
     cross <- get_column ct "cross_border_investment" ;;
     drop_column (set_column ct "other" (add_columns other cross))
                 "cross_border_investment")%py
  else Ok ct.

Definition category_market (df_filtered : DataFrame) : result CountFrame :=
  combine_cross_border (by_row_total (crosstab df_filtered)).

(** The sum of all cells. *)
Definition grand_total (ct : CountFrame) : nat :=
  Pd.sum_nat (map Pd.sum_nat (cells ct)).

(** ** Geographic view (tab 3) *)

Definition country_iso : list (string * string) :=
  [("United States", "USA"); ("United Kingdom", "GBR"); ("Japan", "JPN");
   ("Germany", "DEU"); ("France", "FRA")].

Module Geo.

Record summary : Type := mk {
  market : string;
  iso_code : string;
  article_count : nat;
  avg_relevance : option Q;
  high_impact_count : nat;
  top_regulator : string;
  primary_focus : string
}.

End Geo.

(** The inner loop: the regulators of all rows whose cell is a list. *)
Definition all_regs (market_df : DataFrame) : list string :=
  flat_map (fun r => match key_regulators r with
                     | Some regs => regs
                     | None => []
                     end) market_df.

Definition top_regulator_of (market_df : DataFrame) : result string :=
  match all_regs market_df with
  | [] => Ok "N/A"
  | regs =>
      (top_reg <- first_item (Pd.most_common_1 (Pd.Counter regs)) ;;
       Ok (fst top_reg ++ " (" ++ str_of_nat (snd top_reg) ++ " mentions)")%string)%py
  end.

Definition top_category_of (market_df : DataFrame) : result string :=
  (top <- first_item (Pd.value_counts (map category market_df)) ;;
   Ok (title_case (replace_char "_" " " (fst top))))%py.

(** One pass of the loop body, for one market. *)
Definition map_record (df_filtered : DataFrame) (market : string) : result Geo.summary :=
  let market_df := List.filter (in_market market) df_filtered in
  (top_regulator <- top_regulator_of market_df ;;
   top_category <- top_category_of market_df ;;
   iso <- getitem country_iso market ;;
   Ok (Geo.mk market iso (List.length market_df)
              (Pd.round1 (Pd.mean (map relevance_score market_df)))
              (List.length (List.filter is_high market_df))
              top_regulator top_category))%py.

Definition map_data (df_filtered : DataFrame) : result (list Geo.summary) :=
  Py.for_each (map_record df_filtered) (Pd.unique (map market_name df_filtered)).

(** ** Top articles (tab 4) *)

(** A row of [df_clean]: the article's columns and the added column. *)
Record CleanRow : Type := mkClean {
  article : Article;
  title_normalized : string
}.

(** The characters that the pattern [[^a-z0-9\s]] leaves in place. *)
Definition kept_in_title (c : ascii) : bool :=
  is_lower c || is_digit c || is_space c.

(** [title.lower()] with every match of [[^a-z0-9\s]] removed. *)
Definition normalize_title (t : string) : string :=
  str_filter kept_in_title (lower t).

Definition df_clean (df_filtered : DataFrame) : list CleanRow :=
  map (fun a => mkClean a (normalize_title (title a))) df_filtered.

Definition df_unique (df_filtered : DataFrame) : list CleanRow :=
  Pd.drop_duplicates title_normalized (df_clean df_filtered).

Definition excluded_sources : list string :=
  ["Economictimes.com"; "Bitcoinist"; "Cointelegraph"].

(** [df_unique[~df_unique['source_name'].isin(excluded_sources)]]. *)
Definition exclude_sources (rows : list CleanRow) : list CleanRow :=
  List.filter (fun r => negb (Pd.isin excluded_sources (source_name (article r)))) rows.

Definition market_order : list string :=
  ["United States"; "United Kingdom"; "Germany"; "Japan"; "France"].

Definition of_market (m : string) (r : CleanRow) : bool := in_market m (article r).

(** The loop over [market_order], from the given market on. *)
Fixpoint top_articles_from (markets : list string) (rows : list CleanRow)
  : list (list CleanRow) :=
  match markets with
  | [] => []
  | market :: rest =>
      if Py.contains (map (fun r => market_name (article r)) rows) market then
        Pd.nlargest 5 (fun r => relevance_score (article r))
                    (List.filter (of_market market) rows)
        :: top_articles_from rest rows
      else top_articles_from rest rows
  end.

Definition top_articles_list (rows : list CleanRow) : list (list CleanRow) :=
  top_articles_from market_order rows.

(** [pd.concat(top_articles_list)] when the list is not empty; [None] is the
    branch that shows "No articles match the current filters." *)
Definition top_articles (rows : list CleanRow) : option (list CleanRow) :=
  match top_articles_list rows with
  | [] => None
  | groups => Some (List.concat groups)
  end.

Definition curated (df_filtered : DataFrame) : option (list CleanRow) :=
  top_articles (exclude_sources (df_unique df_filtered)).

(** ** The page header and the sidebar defaults *)

(** The "Last Updated" text: [f"{timestamp[:8]}-{timestamp[8:14]}"]. *)
Definition last_updated (timestamp : string) : string :=
  (substring 0 8 timestamp ++ "-" ++ substring 8 6 timestamp)%string.

(** The widgets' values before the user touches them: every market and
    every category of the frame, relevance 0, the three impact levels. *)
Definition default_filter (df : DataFrame) : FilterState :=
  mkFilter (Pd.unique (map market_name df)) 0
           (Pd.unique (map category df)) ["high"; "medium"; "low"].

(** ** Relevance distribution (tab 1, second chart) *)

(** [series.median()]: the middle value of the sorted values, or the mean
    of the two middle ones; [None] stands for NaN. *)
Definition median (xs : list Z) : option Q :=
  let s := Py.sorted Z.leb xs in
  let n := List.length s in
  match n with
  | O => None
  | S _ =>
      if Nat.odd n then Some (inject_Z (nth (n / 2) s 0%Z))
      else Some (Qmake (nth (n / 2 - 1) s 0%Z + nth (n / 2) s 0%Z) 2)
  end.

(** The order of [sort_values(ascending=False)] on a column of floats: larger
    first, NaN last. *)
Definition q_ge (a b : option Q) : bool :=
  match a, b with
  | Some x, Some y => Qle_bool y x
  | Some _, None => true
  | None, Some _ => false
  | None, None => true
  end.

(** The median relevance of one market's rows. *)
Definition median_of (df_filtered : DataFrame) (m : string) : option Q :=
  median (map relevance_score (List.filter (in_market m) df_filtered)).

(** [groupby('market_name')['relevance_score'].median()], in key order. *)
Definition market_medians (df_filtered : DataFrame) : list (string * option Q) :=
  map (fun m => (m, median_of df_filtered m))
      (Pd.group_keys (map market_name df_filtered)).

(** [market_order]: the markets by median relevance, largest first. *)
Definition relevance_order (df_filtered : DataFrame) : list string :=
  map fst (Py.sorted (fun a b => q_ge (snd a) (snd b)) (market_medians df_filtered)).

(** The box colours: [COLORS['markets'][market]] for each market of the
    order. *)
Definition box_colors (df_filtered : DataFrame) : result (list string) :=
  Py.for_each (getitem market_colors) (relevance_order df_filtered).

(** ** The table's row colours and the whole run *)

(** The colour looked up for each row of the table,
    [COLORS['markets'][market]]; the rgba text made from it is left out. *)
Definition table_colors (table : list CleanRow) : result (list string) :=
  Py.for_each (getitem market_colors) (map (fun r => market_name (article r)) table).

(** What the four tabs compute, in script order. *)
Record Views : Type := mkViews {
  bars : list Overview.row;
  bar_colors : list string;
  boxes : list string;
  categories : CountFrame;
  map_records : list Geo.summary;
  table : option (list CleanRow);
  table_fill : list string
}.

Definition tabs (df_filtered : DataFrame) : result Views :=
  (bar_fill <- marker_color df_filtered ;;
   _ <- box_colors df_filtered ;;
   cm <- category_market df_filtered ;;
   records <- map_data df_filtered ;;
   let top := curated df_filtered in
   fill <- match top with
           | Some rows => table_colors rows
           | None => Ok []
           end ;;
   Ok (mkViews (market_overview df_filtered) bar_fill (relevance_order df_filtered)
               cm records top fill))%py.

(** One run of the script on a loaded frame, with the widgets' values: the
    cards, then the tabs.  The calls that only draw are left out. *)
Definition dashboard (df : DataFrame) (fs : FilterState) : Script Views :=
  (key_insights df (df_filtered fs df) ;;; lift (tabs (df_filtered fs df)))%py.

(** ** Sample rows, for the worked examples *)

Definition sample (t m c : string) (score : Z) (impact : string) : Article :=
  mkArticle t 0 m c score impact (Some ["SEC"; "FCA"; "FCA"]) "Reuters" "".

(** ** Specification predicates *)

(** [Subseq s l]: [s] is [l] with some rows left out, order kept. *)
Inductive Subseq {A : Type} : list A -> list A -> Prop :=
| Subseq_nil : Subseq [] []
| Subseq_keep x s l : Subseq s l -> Subseq (x :: s) (x :: l)
| Subseq_drop x s l : Subseq s l -> Subseq s (x :: l).

#[local] Hint Constructors Subseq : core.

Definition satisfies (fs : FilterState) (r : Article) : Prop :=
  In (market_name r) (selected_markets fs)
  /\ (min_relevance fs <= relevance_score r)%Z
  /\ In (category r) (selected_categories fs)
  /\ In (impact_level r) (selected_impact fs).







Definition has_normalized (k : string) (r : CleanRow) : bool :=
  String.eqb (title_normalized r) k.

Definition count_market (m : string) (rows : list CleanRow) : nat :=
  List.length (List.filter (of_market m) rows).

Definition score (r : CleanRow) : Z := relevance_score (article r).

(** The five rows (or fewer) that the table shows for a market. *)
Definition market_top (rows : list CleanRow) (m : string) : list CleanRow :=
  Pd.nlargest 5 score (List.filter (of_market m) rows).

(** A card's numbers make sense for a frame of [total] rows: a count is at
    most [total], a percentage lies between 0 and 100. *)
Definition card_in_range (total : nat) (m : Metric) : Prop :=
  match value m with
  | IntValue n => n <= total
  | ScoreValue _ => True
  end
  /\ match delta m with
     | PctOfTotal q | PctOfFiltered q => (0 <= q)%Q /\ (q <= 100)%Q
     | OutOf5 | NoDelta => True
     end.

(** A mean that is a number within the given bounds. *)
Definition mean_within (lo hi : Z) (x : option Q) : Prop :=
  exists q, x = Some q /\ (inject_Z lo <= q)%Q /\ (q <= inject_Z hi)%Q.

(** What a cell of the finished category table holds: the articles of the
    market and the category, and for "other" the cross-border ones too. *)
Definition folded_count (df : DataFrame) (m c : string) : nat :=
  cell_count df m c
  + (if String.eqb c "other" then cell_count df m "cross_border_investment" else 0).

Definition market_size (df : DataFrame) (m : string) : nat :=
  List.length (List.filter (in_market m) df).

(** The frame that the table is made from: [df_unique] after the sources
    are excluded. *)
Definition curated_rows (df_filtered : DataFrame) : list CleanRow :=
  exclude_sources (df_unique df_filtered).

(** The rows of the table ([top_articles]); none in the branch that shows
    the "No articles" message. *)
Definition table_rows (df_filtered : DataFrame) : list CleanRow :=
  List.concat (top_articles_list (curated_rows df_filtered)).

(** How often a name occurs in a list. *)
Definition mentions (xs : list string) (k : string) : nat :=
  count_occ string_dec xs k.

(** The count that a [Counter] holds for a key, 0 for a key it has not. *)
Definition counted (c : list (string * nat)) (k : string) : nat :=
  match find (fun kv => String.eqb (fst kv) k) c with
  | Some kv => snd kv
  | None => 0
  end.

(** A date or a time part of a snapshot name has no underscore inside. *)
Definition no_underscore (s : string) : Prop :=
  ~ In "_"%char (list_ascii_of_string s).

(** Every row of cells has one cell per column. *)
Definition aligned (ct : CountFrame) : Prop :=
  List.length (index ct) = List.length (cells ct)
  /\ Forall (fun row => List.length row = List.length (columns ct)) (cells ct).

(* ================================================================ *)
(** * Properties *)

(** ** Generic list facts *)

(** To prove a property of every row: take a row and its membership. *)
Ltac each_row r Hr := apply Forall_forall; intros r Hr.

Lemma Subseq_filter {A} (f : A -> bool) (l : list A) :
  Subseq (List.filter f l) l.
Proof.
  induction l as [|x l IH]; simpl; [constructor|].
  destruct (f x); auto.
Qed.

Lemma Subseq_length {A} (s l : list A) : Subseq s l -> List.length s <= List.length l.
Proof. induction 1; simpl; lia. Qed.

Lemma Subseq_incl {A} (s l : list A) : Subseq s l -> incl s l.
Proof.
  induction 1; intros y Hy; simpl in *; intuition.
Qed.

Lemma contains_In (xs : list string) (x : string) :
  Py.contains xs x = true <-> In x xs.
Proof.
  unfold Py.contains. rewrite existsb_exists. split.
  - intros (y & Hy & E). apply String.eqb_eq in E. now subst.
  - intros H. exists x. split; [assumption | apply String.eqb_refl].
Qed.

Lemma contains_false (xs : list string) (x : string) :
  Py.contains xs x = false <-> ~ In x xs.
Proof.
  rewrite <- contains_In. destruct (Py.contains xs x); intuition congruence.
Qed.

(** ** Lookups and loops *)

Lemma getitem_spec {V} (d : list (string * V)) (k : string) :
  match Py.getitem d k with
  | Ok v => In (k, v) d
  | Raise e => e = KeyError k /\ ~ In k (map fst d)
  end.
Proof.
  induction d as [|[k' v] d IH]; simpl; [intuition|].
  destruct (String.eqb_spec k k') as [->|Hne]; [now left|].
  destruct (Py.getitem d k); [now right|].
  destruct IH as [-> IH]. split; [reflexivity|]. intros [E|H]; [congruence|auto].
Qed.

Lemma for_each_spec {A B} (body : A -> result B) (items : list A) :
  match Py.is_ok (Py.for_each body items), Py.for_each body items with
  | true, Ok ys => Forall2 (fun x y => body x = Ok y) items ys
  | _, Raise e => exists x, In x items /\ body x = Raise e
  | _, _ => False
  end.
Proof.
  induction items as [|x items IH]; simpl; [constructor|].
  destruct (body x) as [y|e] eqn:E; simpl; [|exists x; auto].
  destruct (Py.for_each body items) as [ys|e]; simpl in *.
  - now constructor.
  - destruct IH as (x' & Hx' & He). exists x'. auto.
Qed.

Lemma for_each_ok_In {A B} (body : A -> result B) (items : list A) (ys : list B) (x : A) :
  Py.for_each body items = Ok ys -> In x items -> exists y, body x = Ok y.
Proof.
  revert ys. induction items as [|x' items IH]; intros ys H Hin; [destruct Hin|].
  simpl in H. destruct (body x') as [y|e] eqn:E; simpl in H; [|discriminate].
  destruct Hin as [<-|Hin]; [eauto|].
  destruct (Py.for_each body items) as [ys'|e]; simpl in H; [|discriminate].
  now apply (IH ys').
Qed.

(** ** The filter: properties *)

Lemma filter_mask_spec (fs : FilterState) (r : Article) :
  filter_mask fs r = true <-> satisfies fs r.
Proof.
  unfold filter_mask, satisfies, Pd.isin.
  rewrite !andb_true_iff, !contains_In, Z.leb_le. tauto.
Qed.

(** C1. The filtered frame is the full frame with rows left out (hence a
    subset, and no longer than it), and each row it keeps passes the four
    tests together: market selected, relevance at least the minimum,
    category selected, impact level selected. *)
Theorem df_filtered_subset_and_sound (fs : FilterState) (df : DataFrame) :
  Subseq (df_filtered fs df) df
  /\ incl (df_filtered fs df) df
  /\ List.length (df_filtered fs df) <= List.length df
  /\ Forall (satisfies fs) (df_filtered fs df).
Proof.
  pose proof (Subseq_filter (filter_mask fs) df) as Hs.
  repeat split.
  - exact Hs.
  - now apply Subseq_incl.
  - now apply Subseq_length.
  - each_row r Hr.
    apply filter_In in Hr. now apply filter_mask_spec.
Qed.

(** C2. An empty selection on the market, category or impact-level widget
    leaves no row: the empty multi-select is not read as "no filter". *)
Theorem df_filtered_empty_selection (fs : FilterState) (df : DataFrame) :
  selected_markets fs = [] \/ selected_categories fs = [] \/ selected_impact fs = [] ->
  df_filtered fs df = [].
Proof.
  intros H. unfold df_filtered.
  induction df as [|r df IH]; simpl; [reflexivity|].
  assert (filter_mask fs r = false) as ->; [|exact IH].
  unfold filter_mask, Pd.isin.
  destruct H as [H | [H | H]]; rewrite H; simpl;
    rewrite ?andb_false_r; reflexivity.
Qed.

(** C2 at work: one article loaded, no market selected. *)
Lemma df_filtered_empty_selection_witness :
  df_filtered (mkFilter [] 0 ["monetary_policy"] ["high"; "medium"; "low"])
              [sample "Fed holds rates" "United States" "monetary_policy" 7 "high"]
  = [].
Proof.
  apply df_filtered_empty_selection. left. reflexivity.
Defined.




(** ** Stable sorting *)

Section SortingFacts.
Context {A : Type} (leb : A -> A -> bool).

Lemma insert_perm (x : A) (l : list A) : Permutation (Py.insert leb x l) (x :: l).
Proof.
  induction l as [|y l IH]; simpl; [reflexivity|].
  destruct (leb x y); [reflexivity|].
  rewrite IH. apply perm_swap.
Qed.

Lemma sorted_perm (l : list A) : Permutation (Py.sorted leb l) l.
Proof.
  induction l as [|x l IH]; simpl; [reflexivity|].
  rewrite insert_perm. now constructor.
Qed.

Lemma sorted_length (l : list A) : List.length (Py.sorted leb l) = List.length l.
Proof. apply Permutation_length, sorted_perm. Qed.

Lemma sorted_In (l : list A) (x : A) : In x (Py.sorted leb l) <-> In x l.
Proof.
  split; apply Permutation_in; [|symmetry]; apply sorted_perm.
Qed.

Hypothesis leb_total : forall a b, leb a b = true \/ leb b a = true.
Hypothesis leb_trans : forall a b c, leb a b = true -> leb b c = true -> leb a c = true.

Lemma insert_sorted (x : A) (l : list A) :
  StronglySorted (fun a b => leb a b = true) l ->
  StronglySorted (fun a b => leb a b = true) (Py.insert leb x l).
Proof.
  induction 1 as [|y l Hs IH Hy]; simpl.
  - repeat constructor.
  - destruct (leb x y) eqn:E.
    + constructor; [now constructor|].
      constructor; [exact E|].
      eapply Forall_impl; [|exact Hy]. intros z Hz. now apply (leb_trans x y z).
    + constructor; [exact IH|].
      each_row z Hz.
      apply (Permutation_in _ (insert_perm x l)) in Hz. destruct Hz as [<-|Hz].
      * destruct (leb_total x y) as [C|C]; [congruence|exact C].
      * rewrite Forall_forall in Hy. now apply Hy.
Qed.

Lemma sorted_StronglySorted (l : list A) :
  StronglySorted (fun a b => leb a b = true) (Py.sorted leb l).
Proof.
  induction l as [|x l IH]; simpl; [constructor|now apply insert_sorted].
Qed.

End SortingFacts.

Lemma StronglySorted_last {A} (R : A -> A -> Prop) (l : list A) (x : A) :
  StronglySorted R (l ++ [x]) -> Forall (fun y => R y x) l.
Proof.
  induction l as [|y l IH]; simpl; intros H; [constructor|].
  inversion H as [|? ? Hs Hy]; subst. constructor.
  - rewrite Forall_forall in Hy. apply Hy, in_or_app. right. now left.
  - now apply IH.
Qed.

Lemma StronglySorted_impl {A} (R S : A -> A -> Prop) (l : list A) :
  (forall a b, R a b -> S a b) -> StronglySorted R l -> StronglySorted S l.
Proof.
  intros HRS. induction 1 as [|x l Hs IH Hx]; constructor; [assumption|].
  eapply Forall_impl; [|exact Hx]. intros y. apply HRS.
Qed.

Lemma item_from_end_last {A} (l : list A) :
  match Py.item_from_end l 1 with
  | Ok x => exists l', l = l' ++ [x]
  | Raise e => e = IndexError /\ l = []
  end.
Proof.
  unfold Py.item_from_end. destruct (rev l) as [|x r] eqn:E; simpl.
  - split; [reflexivity|]. now rewrite <- (rev_involutive l), E.
  - exists (rev r). now rewrite <- (rev_involutive l), E.
Qed.

(** ** The order of strings *)

Lemma ascii_compare_N (a b : ascii) :
  Ascii.compare a b = N.compare (N_of_ascii a) (N_of_ascii b).
Proof. reflexivity. Qed.

Lemma string_compare_lt_trans (s1 s2 s3 : string) :
  String.compare s1 s2 = Lt -> String.compare s2 s3 = Lt -> String.compare s1 s3 = Lt.
Proof.
  revert s2 s3. induction s1 as [|a s1 IH]; intros [|b s2] [|c s3]; simpl;
    try congruence.
  rewrite !ascii_compare_N.
  destruct (N.compare_spec (N_of_ascii a) (N_of_ascii b)) as [E1|L1|G1];
    destruct (N.compare_spec (N_of_ascii b) (N_of_ascii c)) as [E2|L2|G2];
    try congruence; intros H1 H2.
  - rewrite E1, E2, N.compare_refl. eauto.
  - rewrite E1. now apply N.compare_lt_iff in L2 as ->.
  - rewrite <- E2. now apply N.compare_lt_iff in L1 as ->.
  - assert (N_of_ascii a < N_of_ascii c)%N as L by lia.
    now apply N.compare_lt_iff in L as ->.
Qed.

Lemma string_compare_refl (s : string) : String.compare s s = Eq.
Proof.
  induction s as [|a s IH]; simpl; [reflexivity|].
  now rewrite ascii_compare_N, N.compare_refl.
Qed.

Lemma string_leb_trans (s1 s2 s3 : string) :
  String.leb s1 s2 = true -> String.leb s2 s3 = true -> String.leb s1 s3 = true.
Proof.
  unfold String.leb.
  destruct (String.compare s1 s2) eqn:E1; try discriminate;
    destruct (String.compare s2 s3) eqn:E2; try discriminate; intros _ _.
  - apply String.compare_eq_iff in E1, E2. subst. now rewrite string_compare_refl.
  - apply String.compare_eq_iff in E1. subst. now rewrite E2.
  - apply String.compare_eq_iff in E2. subst. now rewrite E1.
  - now rewrite (string_compare_lt_trans _ _ _ E1 E2).
Qed.

(** ** The snapshot loader *)

Lemma glob_In (dir : list string) (f : string) :
  In f (glob dir) <-> In f dir /\ glob_match f = true.
Proof. apply filter_In. Qed.

Lemma latest_file_spec (dir : list string) :
  match latest_file dir with
  | Ok f => In f (glob dir) /\ Forall (fun g => String.leb g f = true) (glob dir)
  | Raise e => e = IndexError /\ glob dir = []
  end.
Proof.
  unfold latest_file.
  pose proof (item_from_end_last (Py.sorted String.leb (glob dir))) as H.
  destruct (Py.item_from_end (Py.sorted String.leb (glob dir)) 1) as [f|e].
  - destruct H as [l' H].
    assert (forall g, In g (glob dir) <-> In g (l' ++ [f])) as Hin.
    { intros g. rewrite <- H. symmetry. apply sorted_In. }
    split; [apply Hin, in_or_app; right; now left|].
    pose proof (sorted_StronglySorted String.leb String.leb_total
                  string_leb_trans (glob dir)) as Hs.
    rewrite H in Hs. pose proof (StronglySorted_last _ _ _ Hs) as Hl.
    rewrite Forall_forall in *. intros g Hg. apply Hin, in_app_or in Hg.
    destruct Hg as [Hg|[<-|[]]]; [now apply Hl|].
    destruct (String.leb_total f f); assumption.
  - destruct H as [-> H]. split; [reflexivity|].
    apply Permutation_nil. rewrite <- H. apply sorted_perm.
Qed.

(** ** File names *)

Section FileNames.
Local Open Scope string_scope.

Lemma prefix_app (p s : string) :
  String.prefix p s = true -> exists r, s = p ++ r.
Proof.
  revert s. induction p as [|c p IH]; intros s H.
  - now exists s.
  - destruct s as [|d s]; simpl in H; [discriminate|].
    destruct (ascii_dec c d) as [->|]; [|discriminate].
    destruct (IH s H) as [r ->]. now exists r.
Qed.

Lemma prefix_app_l (p a b : string) :
  String.length p <= String.length a -> String.prefix p (a ++ b) = String.prefix p a.
Proof.
  revert a. induction p as [|c p IH]; intros a H.
  - destruct a; simpl; [now destruct b|reflexivity].
  - destruct a as [|d a]; simpl in *; [lia|].
    destruct (ascii_dec c d); [apply IH; lia|reflexivity].
Qed.

Lemma substring_split (n : nat) (s : string) :
  n <= String.length s ->
  s = substring 0 n s ++ substring n (String.length s - n) s.
Proof.
  revert n. induction s as [|c s IH]; intros [|n] H; simpl in *; try lia; try reflexivity.
  - f_equal. clear. induction s as [|d s IH]; simpl; [reflexivity|]. now rewrite <- IH.
  - f_equal. apply IH. lia.
Qed.

Lemma length_substring_0 (n : nat) (s : string) :
  n <= String.length s -> String.length (substring 0 n s) = n.
Proof.
  revert n. induction s as [|c s IH]; intros [|n] H; simpl in *; try lia.
  rewrite IH; lia.
Qed.

Lemma substring_0_app (a b : string) : substring 0 (String.length a) (a ++ b) = a.
Proof.
  induction a as [|c a IH]; simpl; [now destruct b|]. now rewrite IH.
Qed.

Lemma endswith_app (suffix s : string) :
  endswith suffix s = true -> exists r, s = r ++ suffix.
Proof.
  unfold endswith. intros H. apply andb_true_iff in H. destruct H as [Hl He].
  apply Nat.leb_le in Hl. apply String.eqb_eq in He.
  exists (substring 0 (String.length s - String.length suffix) s).
  rewrite (substring_split (String.length s - String.length suffix) s) at 1 by lia.
  f_equal. rewrite <- He at 3. f_equal. lia.
Qed.

Lemma length_append (a b : string) :
  String.length (a ++ b) = String.length a + String.length b.
Proof. induction a as [|c a IH]; simpl; [reflexivity|]. now rewrite IH. Qed.

Lemma rfind_dot_json (x : string) :
  rfind "." (x ++ ".json") = Some (String.length x).
Proof.
  induction x as [|c x IH]; [reflexivity|].
  cbn [append rfind String.length]. now rewrite IH.
Qed.

Lemma split_nonempty (sep : ascii) (s : string) : split sep s <> [].
Proof.
  induction s as [|c s IH]; simpl; [discriminate|].
  destruct (Ascii.eqb c sep); [discriminate|].
  destruct (split sep s); [contradiction|discriminate].
Qed.

(** A name that matches the pattern has a stem with at least three
    underscore-separated parts, so the label is always built. *)
Lemma label_of_match (f : string) :
  glob_match f = true ->
  exists date time,
    Py.item_from_end (split "_" (stem f)) 2 = Ok date
    /\ Py.item_from_end (split "_" (stem f)) 1 = Ok time.
Proof.
  unfold glob_match. intros H. apply andb_true_iff in H. destruct H as [H Hlen].
  apply andb_true_iff in H. destruct H as [Hp He]. apply Nat.leb_le in Hlen.
  destruct (endswith_app _ _ He) as [r ->]. rewrite length_append in Hlen.
  rewrite prefix_app_l in Hp by (simpl in *; lia).
  destruct (prefix_app _ _ Hp) as [x ->]. clear Hp He Hlen.
  assert (stem (("analyzed_articles_" ++ x) ++ ".json") = "analyzed_articles_" ++ x)
    as ->.
  { unfold stem. rewrite rfind_dot_json.
    assert ((0 <? String.length ("analyzed_articles_" ++ x))%nat = true) as ->
      by (apply Nat.ltb_lt; rewrite length_append; simpl; lia).
    assert ((String.length ("analyzed_articles_" ++ x)
             <? String.length (("analyzed_articles_" ++ x) ++ ".json") - 1)%nat = true) as ->
      by (apply Nat.ltb_lt; rewrite (length_append _ ".json"); simpl; lia).
    cbn [andb]. apply substring_0_app. }
  pose proof (split_nonempty "_" x) as Hx.
  assert (exists w ws, split "_" ("analyzed_articles_" ++ x)
                       = "analyzed" :: "articles" :: w :: ws) as (w & ws & ->).
  { destruct (split "_" x) as [|w ws] eqn:E; [contradiction|].
    exists w, ws. cbn. now rewrite E. }
  unfold Py.item_from_end. cbn [rev].
  destruct (rev ws ++ [w])%list as [|t l] eqn:E.
  { apply (f_equal (@List.length _)) in E. rewrite length_app in E. simpl in E. lia. }
  cbn. destruct l as [|d l]; cbn; eauto.
Qed.

End FileNames.

(** Against C5 as stated: [NoSnapshotFound] is not what the loader raises
    where nothing matches; on a directory holding only [notes.txt] the run
    ends in an [IndexError]. *)
Lemma load_data_no_match_is_IndexError :
  glob ["notes.txt"] = []
  /\ load_data (fun _ => Ok []) ["notes.txt"] = Raise IndexError
  /\ ~ (exists e, load_data (fun _ => Ok []) ["notes.txt"] = Raise e
                  /\ exn_name e = "NoSnapshotFound").
Proof.
  repeat split; try reflexivity.
  intros (e & He & Hn). vm_compute in He. inversion He; subst. discriminate Hn.
Qed.

(** C5, as amended.  The loader picks, among the directory's names that
    match [analyzed_articles_*.json], the greatest in the lexicographic
    order, and loads that file (it returns the file's frame, or fails as
    the parser fails); where no name matches it does not succeed: the run
    ends in Python's [IndexError]. *)
Theorem load_data_latest_or_IndexError
    (read_json : string -> result DataFrame) (dir : list string) :
  match latest_file dir with
  | Ok f =>
      In f dir /\ glob_match f = true
      /\ (forall g, In g dir -> glob_match g = true -> String.leb g f = true)
      /\ (forall e, read_json f = Raise e -> load_data read_json dir = Raise e)
      /\ (forall df, read_json f = Ok df ->
                      exists label, load_data read_json dir = Ok (df, label))
  | Raise e =>
      e = IndexError
      /\ (forall g, In g dir -> glob_match g = false)
      /\ load_data read_json dir = Raise IndexError
  end.
Proof.
  pose proof (latest_file_spec dir) as H. unfold load_data.
  destruct (latest_file dir) as [f|e]; cbn [Py.bind].
  - destruct H as [Hf Hmax]. apply glob_In in Hf. destruct Hf as [Hd Hm].
    repeat split; try assumption.
    + intros g Hg Hgm. rewrite Forall_forall in Hmax. apply Hmax, glob_In. now split.
    + intros e ->. reflexivity.
    + intros df ->. destruct (label_of_match f Hm) as (date & time & -> & ->).
      eexists. reflexivity.
  - destruct H as [-> Hnil]. repeat split.
    intros g Hg. destruct (glob_match g) eqn:E; [|reflexivity].
    assert (In g (glob dir)) as Hin by (apply glob_In; now split).
    rewrite Hnil in Hin. destruct Hin.
Qed.

(** ** Key insights *)

Lemma key_insights_nonempty (df filtered : DataFrame) (shown : list Metric) :
  df <> [] -> filtered <> [] ->
  exists cards, key_insights df filtered shown = (shown ++ cards, Ok tt)
                /\ List.length cards = 4.
Proof.
  intros Hd Hf. destruct df as [|a df]; [congruence|].
  destruct filtered as [|b filtered]; [congruence|].
  unfold key_insights, sbind, lift, st_metric, Py.truediv.
  cbn [List.length]. eexists. rewrite <- !app_assoc. split; reflexivity.
Qed.

(** C3.  With no row left by the filter, the third card's percentage divides
    by the filtered size, zero: the run ends in [ZeroDivisionError], whatever
    the full frame is.  With one row loaded and no market selected, the
    first two cards are shown (0% of total, and a mean that is NaN) and the
    run stops there. *)
Theorem key_insights_empty_filter_raises :
  (forall df shown, snd (key_insights df [] shown) = Raise ZeroDivisionError)
  /\ (let df := [sample "Fed holds rates" "United States" "monetary_policy" 7 "high"] in
      let fs := mkFilter [] 0 ["monetary_policy"] ["high"; "medium"; "low"] in
      df_filtered fs df = []
      /\ key_insights df (df_filtered fs df) [] =
           ([mkMetric "Total Articles" (IntValue 0) (PctOfTotal (0 # 1));
             mkMetric "Avg Relevance Score" (ScoreValue None) NoDelta],
            Raise ZeroDivisionError)).
Proof.
  split.
  - intros [|a df] shown; reflexivity.
  - split; reflexivity.
Qed.

(** ** [drop_duplicates] *)

Section DropDuplicatesFacts.
Context {A : Type} (key : A -> string).

Lemma drop_duplicates_from_Subseq (seen : list string) (rows : list A) :
  Subseq (Pd.drop_duplicates_from key seen rows) rows.
Proof.
  revert seen. induction rows as [|r rows IH]; intros seen; simpl; [constructor|].
  destruct (Py.contains seen (key r)); auto.
Qed.

Lemma drop_duplicates_from_fresh (seen : list string) (rows : list A) :
  Forall (fun r => ~ In (key r) seen) (Pd.drop_duplicates_from key seen rows).
Proof.
  revert seen. induction rows as [|r rows IH]; intros seen; simpl; [constructor|].
  destruct (Py.contains seen (key r)) eqn:E; [apply IH|].
  constructor; [now apply contains_false|].
  eapply Forall_impl; [|apply IH]. simpl. intuition.
Qed.

Lemma drop_duplicates_from_NoDup (seen : list string) (rows : list A) :
  NoDup (map key (Pd.drop_duplicates_from key seen rows)).
Proof.
  revert seen. induction rows as [|r rows IH]; intros seen; simpl; [constructor|].
  destruct (Py.contains seen (key r)); [apply IH|]. simpl.
  constructor; [|apply IH].
  intros Hin. apply in_map_iff in Hin. destruct Hin as (r' & Hk & Hr').
  pose proof (drop_duplicates_from_fresh (key r :: seen) rows) as Hf.
  rewrite Forall_forall in Hf. apply (Hf r' Hr'). left. now symmetry.
Qed.

Lemma drop_duplicates_from_fixed (seen : list string) (rows : list A) :
  Forall (fun r => ~ In (key r) seen) rows -> NoDup (map key rows) ->
  Pd.drop_duplicates_from key seen rows = rows.
Proof.
  revert seen. induction rows as [|r rows IH]; intros seen Hf Hn; simpl; [reflexivity|].
  inversion Hf as [|? ? Hr Hrest]; subst. inversion Hn as [|? ? Hnotin Hn']; subst.
  apply contains_false in Hr. rewrite Hr. f_equal. apply IH; [|assumption].
  apply Forall_forall. intros r' Hr' [Heq|Hin].
  - apply Hnotin. rewrite Heq. now apply in_map.
  - rewrite Forall_forall in Hrest. now apply (Hrest r' Hr').
Qed.

Lemma drop_duplicates_from_idempotent (seen : list string) (rows : list A) :
  Pd.drop_duplicates_from key seen (Pd.drop_duplicates_from key seen rows)
  = Pd.drop_duplicates_from key seen rows.
Proof.
  apply drop_duplicates_from_fixed;
    [apply drop_duplicates_from_fresh | apply drop_duplicates_from_NoDup].
Qed.

(** The row kept for a key is the first row of the frame with that key. *)
Lemma drop_duplicates_from_find (seen : list string) (rows : list A) (k : string) :
  ~ In k seen ->
  find (fun r => String.eqb (key r) k) (Pd.drop_duplicates_from key seen rows)
  = find (fun r => String.eqb (key r) k) rows.
Proof.
  revert seen. induction rows as [|r rows IH]; intros seen Hk; simpl; [reflexivity|].
  destruct (Py.contains seen (key r)) eqn:E; simpl.
  - destruct (String.eqb_spec (key r) k) as [Heq|Hne].
    + apply contains_In in E. congruence.
    + now apply IH.
  - destruct (String.eqb_spec (key r) k) as [Heq|Hne]; [reflexivity|].
    apply IH. simpl. intuition.
Qed.

End DropDuplicatesFacts.

(** ** Deduplication of titles *)

Lemma df_clean_article (df : DataFrame) : map article (df_clean df) = df.
Proof.
  unfold df_clean. rewrite map_map. simpl. apply map_id.
Qed.

Lemma df_clean_coherent (rows : list CleanRow) :
  Forall (fun r => title_normalized r = normalize_title (title (article r))) rows ->
  df_clean (map article rows) = rows.
Proof.
  unfold df_clean.
  induction 1 as [|r rows Hr _ IH]; simpl; [reflexivity|].
  rewrite IH. f_equal. destruct r; simpl in *. now subst.
Qed.

Lemma df_unique_coherent (df : DataFrame) :
  Forall (fun r => title_normalized r = normalize_title (title (article r))) (df_unique df).
Proof.
  each_row r Hr.
  apply (Subseq_incl _ _ (drop_duplicates_from_Subseq _ _ _)) in Hr.
  unfold df_clean in Hr. apply in_map_iff in Hr. destruct Hr as (a & <- & _).
  reflexivity.
Qed.

(** C10.  Running the deduplication on the rows it has produced gives the
    same rows back. *)
Theorem df_unique_idempotent (df : DataFrame) :
  df_unique (map article (df_unique df)) = df_unique df.
Proof.
  unfold df_unique at 1. rewrite (df_clean_coherent _ (df_unique_coherent df)).
  apply drop_duplicates_from_idempotent.
Qed.


Lemma normalize_title_kept (t : string) :
  Forall (fun c => kept_in_title c = true) (list_ascii_of_string (normalize_title t)).
Proof.
  unfold normalize_title. induction (lower t) as [|c s IH]; simpl; [constructor|].
  destruct (kept_in_title c) eqn:E; simpl; [constructor|]; assumption.
Qed.




(** ** Counting rows by key *)

Lemma sum_nat_perm (l l' : list nat) :
  Permutation l l' -> Pd.sum_nat l = Pd.sum_nat l'.
Proof. induction 1; simpl; lia. Qed.

Lemma sum_nat_app (l l' : list nat) :
  Pd.sum_nat (l ++ l') = Pd.sum_nat l + Pd.sum_nat l'.
Proof. induction l; simpl; lia. Qed.

Lemma sum_nat_map_add {A} (f g : A -> nat) (l : list A) :
  Pd.sum_nat (map (fun x => f x + g x) l)
  = Pd.sum_nat (map f l) + Pd.sum_nat (map g l).
Proof. induction l; simpl; lia. Qed.

Lemma sum_nat_map_ext {A} (f g : A -> nat) (l : list A) :
  (forall x, In x l -> f x = g x) ->
  Pd.sum_nat (map f l) = Pd.sum_nat (map g l).
Proof.
  induction l as [|x l IH]; simpl; intros H; [reflexivity|].
  rewrite (H x), IH; auto.
Qed.

Lemma sum_nat_map_zero {A} (l : list A) : Pd.sum_nat (map (fun _ => 0) l) = 0.
Proof. induction l; simpl; lia. Qed.

Lemma sum_indicator_absent (x : string) (ks : list string) :
  ~ In x ks -> Pd.sum_nat (map (fun k => if String.eqb x k then 1 else 0) ks) = 0.
Proof.
  induction ks as [|k ks IH]; simpl; intros H; [reflexivity|].
  destruct (String.eqb_spec x k) as [E|E]; [exfalso; apply H; left; congruence|].
  apply IH. intros Hin. apply H. now right.
Qed.

Lemma sum_indicator_present (x : string) (ks : list string) :
  NoDup ks -> In x ks ->
  Pd.sum_nat (map (fun k => if String.eqb x k then 1 else 0) ks) = 1.
Proof.
  induction 1 as [|k ks Hk Hn IH]; simpl; intros Hin; [destruct Hin|].
  destruct (String.eqb_spec x k) as [->|Hne].
  - now rewrite sum_indicator_absent.
  - destruct Hin as [->|Hin]; [congruence|]. now rewrite IH.
Qed.

(** Counting the rows key by key, over distinct keys that cover the rows,
    counts every row once. *)
Lemma count_by_key {A} (key : A -> string) (ks : list string) (rows : list A) :
  NoDup ks -> Forall (fun r => In (key r) ks) rows ->
  Pd.sum_nat (map (fun k => List.length (List.filter (fun r => String.eqb (key r) k) rows)) ks)
  = List.length rows.
Proof.
  intros Hn. induction 1 as [|r rows Hr _ IH]; simpl.
  - apply sum_nat_map_zero.
  - transitivity
      (Pd.sum_nat (map (fun k => (if String.eqb (key r) k then 1 else 0)
                                 + List.length (List.filter (fun r => String.eqb (key r) k) rows))
                       ks)).
    + apply sum_nat_map_ext. intros k _.
      destruct (String.eqb (key r) k); reflexivity.
    + now rewrite sum_nat_map_add, (sum_indicator_present _ _ Hn Hr), IH.
Qed.

(** ** Distinct values and group keys *)

Lemma unique_In (xs : list string) (x : string) : In x (Pd.unique xs) <-> In x xs.
Proof.
  unfold Pd.unique, Pd.drop_duplicates. split.
  - apply Subseq_incl, drop_duplicates_from_Subseq.
  - intros Hin.
    pose proof (drop_duplicates_from_find (fun y : string => y) [] xs x (fun f => f)) as Hf.
    destruct (find (fun r => String.eqb r x) xs) as [y|] eqn:E.
    + apply find_some in Hf. destruct Hf as [Hy Heq].
      apply String.eqb_eq in Heq. now subst.
    + apply (find_none _ _ E) in Hin. now rewrite String.eqb_refl in Hin.
Qed.

Lemma unique_NoDup (xs : list string) : NoDup (Pd.unique xs).
Proof.
  pose proof (drop_duplicates_from_NoDup (fun y : string => y) [] xs) as H.
  now rewrite map_id in H.
Qed.

Lemma group_keys_In (xs : list string) (x : string) :
  In x (Pd.group_keys xs) <-> In x xs.
Proof. unfold Pd.group_keys. now rewrite sorted_In, unique_In. Qed.

Lemma group_keys_NoDup (xs : list string) : NoDup (Pd.group_keys xs).
Proof.
  unfold Pd.group_keys.
  eapply Permutation_NoDup; [symmetry; apply sorted_perm | apply unique_NoDup].
Qed.

Lemma group_keys_sorted (xs : list string) :
  StronglySorted (fun a b => String.leb a b = true) (Pd.group_keys xs).
Proof.
  apply sorted_StronglySorted; [apply String.leb_total | apply string_leb_trans].
Qed.

Lemma sort_desc_sorted {A} (by_ : A -> nat) (rows : list A) :
  StronglySorted (fun a b => by_ b <= by_ a) (Pd.sort_desc by_ rows).
Proof.
  unfold Pd.sort_desc.
  eapply StronglySorted_impl;
    [|apply (sorted_StronglySorted (fun a b => (by_ b <=? by_ a)%nat))].
  - intros a b Hab. now apply Nat.leb_le.
  - intros a b. rewrite !Nat.leb_le. lia.
  - intros a b c. rewrite !Nat.leb_le. lia.
Qed.

(** ** Market overview *)

Lemma market_groups_markets (df : DataFrame) :
  map Overview.market (market_groups df) = Pd.group_keys (map market_name df).
Proof. unfold market_groups. rewrite map_map. apply map_id. Qed.

Lemma market_groups_counts (df : DataFrame) :
  map Overview.article_count (market_groups df)
  = map (fun m => List.length (List.filter (in_market m) df))
        (Pd.group_keys (map market_name df)).
Proof.
  unfold market_groups. rewrite map_map. apply map_ext. intros m. simpl.
  apply length_map.
Qed.

Lemma in_market_rows (df : DataFrame) (m : string) :
  In m (map market_name df) -> 1 <= List.length (List.filter (in_market m) df).
Proof.
  intros H. apply in_map_iff in H. destruct H as (r & Hm & Hr).
  assert (In r (List.filter (in_market m) df)) as Hin.
  { apply filter_In. split; [assumption|]. unfold in_market. rewrite Hm.
    apply String.eqb_refl. }
  destruct (List.filter (in_market m) df); [destruct Hin | simpl; lia].
Qed.

Lemma market_overview_perm (df : DataFrame) :
  Permutation (market_overview df) (market_groups df).
Proof. apply sorted_perm. Qed.

Lemma market_overview_markets (df : DataFrame) :
  Permutation (map Overview.market (market_overview df))
              (Pd.group_keys (map market_name df)).
Proof.
  rewrite <- market_groups_markets. apply Permutation_map, market_overview_perm.
Qed.

(** The first chart is drawn only if every market of the filtered frame
    has a colour, that is, is one of the five markets. *)
Lemma marker_color_markets (df : DataFrame) :
  Py.is_ok (marker_color df) = true ->
  Forall (fun r => In (market_name r) market_order) df.
Proof.
  unfold marker_color. intros Hok.
  destruct (Py.for_each _ _) as [ys|e] eqn:E; [clear Hok|discriminate].
  each_row r Hr.
  assert (In (market_name r) (map Overview.market (market_overview df))) as Hin.
  { apply (Permutation_in _ (Permutation_sym (market_overview_markets df))).
    apply group_keys_In. now apply in_map. }
  destruct (for_each_ok_In _ _ _ _ E Hin) as [y Hy].
  pose proof (getitem_spec market_colors (market_name r)) as Hg. rewrite Hy in Hg.
  apply (in_map fst) in Hg. simpl in Hg. unfold market_order. simpl. tauto.
Qed.

(** C9.  The market summary has one row per market present in the filtered
    frame; a row holds the number of that market's articles and the mean of
    their relevance scores; the rows come by article count, largest first;
    the counts add up to the size of the filtered frame. *)
Theorem market_overview_counts_means_sorted (df : DataFrame) :
  NoDup (map Overview.market (market_overview df))
  /\ (forall m, In m (map Overview.market (market_overview df))
                <-> In m (map market_name df))
  /\ Forall (fun row =>
               let scores := map relevance_score
                                 (List.filter (in_market (Overview.market row)) df) in
               1 <= Overview.article_count row
               /\ Overview.article_count row
                  = List.length (List.filter (in_market (Overview.market row)) df)
               /\ Overview.avg_relevance row
                  = Some (Qmake (Pd.sum_Z scores) (Pos.of_nat (Overview.article_count row))))
            (market_overview df)
  /\ StronglySorted (fun a b => Overview.article_count b <= Overview.article_count a)
                    (market_overview df)
  /\ Pd.sum_nat (map Overview.article_count (market_overview df)) = List.length df.
Proof.
  pose proof (market_overview_perm df) as Hp.
  pose proof (market_overview_markets df) as Hm.
  split; [|split; [|split; [|split]]].
  - eapply Permutation_NoDup; [symmetry; exact Hm | apply group_keys_NoDup].
  - intros m. rewrite <- (group_keys_In (map market_name df)).
    split; apply Permutation_in; [|symmetry]; exact Hm.
  - each_row row Hrow.
    apply (Permutation_in _ Hp) in Hrow. unfold market_groups in Hrow.
    apply in_map_iff in Hrow. destruct Hrow as (m & <- & Hk). cbn.
    apply group_keys_In, in_market_rows in Hk. rewrite length_map.
    split; [exact Hk|]. split; [reflexivity|].
    unfold Pd.mean.
    destruct (map relevance_score (List.filter (in_market m) df)) as [|z zs] eqn:E.
    + apply (f_equal (@List.length Z)) in E. rewrite length_map in E. simpl in E. lia.
    + rewrite <- E, length_map. reflexivity.
  - apply sort_desc_sorted.
  - rewrite (sum_nat_perm _ _ (Permutation_map Overview.article_count Hp)).
    rewrite market_groups_counts.
    apply (count_by_key market_name); [apply group_keys_NoDup|].
    each_row r Hr. apply group_keys_In. now apply in_map.
Qed.

(** ** Top articles per market *)

Lemma StronglySorted_app {A} (R : A -> A -> Prop) (l1 l2 : list A) :
  StronglySorted R (l1 ++ l2) ->
  forall x y, In x l1 -> In y l2 -> R x y.
Proof.
  induction l1 as [|a l1 IH]; simpl; intros Hs x y Hx Hy; [destruct Hx|].
  inversion Hs as [|? ? Hs' Ha]; subst. destruct Hx as [<-|Hx].
  - rewrite Forall_forall in Ha. apply Ha, in_or_app. now right.
  - now apply (IH Hs').
Qed.

(** [nlargest] returns rows of the frame, none twice over, and no row left
    out has a strictly larger value than a row returned. *)
Lemma nlargest_top {A} (n : nat) (column : A -> Z) (rows : list A) :
  exists rest,
    Permutation rows (Pd.nlargest n column rows ++ rest)
    /\ StronglySorted (fun a b => (column b <= column a)%Z) (Pd.nlargest n column rows)
    /\ forall x y, In x (Pd.nlargest n column rows) -> In y rest ->
                   (column y <= column x)%Z.
Proof.
  unfold Pd.nlargest.
  set (leb := fun a b => (column b <=? column a)%Z).
  assert (StronglySorted (fun a b => (column b <= column a)%Z) (Py.sorted leb rows)) as Hs.
  { eapply StronglySorted_impl; [|apply (sorted_StronglySorted leb)]; unfold leb.
    - intros a b Hab. now apply Z.leb_le.
    - intros a b. rewrite !Z.leb_le. lia.
    - intros a b c. rewrite !Z.leb_le. lia. }
  exists (skipn n (Py.sorted leb rows)).
  rewrite <- (firstn_skipn n (Py.sorted leb rows)) in Hs.
  split; [|split].
  - rewrite firstn_skipn. symmetry. apply sorted_perm.
  - clear -Hs. revert Hs. generalize (skipn n (Py.sorted leb rows)).
    induction (firstn n (Py.sorted leb rows)) as [|a l IH]; intros l2 Hs; [constructor|].
    simpl in Hs. inversion Hs as [|? ? Hs' Ha]; subst. constructor; [eauto|].
    each_row y Hy. rewrite Forall_forall in Ha.
    apply Ha, in_or_app. now left.
  - now apply StronglySorted_app.
Qed.

Lemma nlargest_length {A} (n : nat) (column : A -> Z) (rows : list A) :
  List.length (Pd.nlargest n column rows) = Nat.min n (List.length rows).
Proof. unfold Pd.nlargest. now rewrite length_firstn, sorted_length. Qed.

Lemma nlargest_In {A} (n : nat) (column : A -> Z) (rows : list A) (x : A) :
  In x (Pd.nlargest n column rows) -> In x rows.
Proof.
  unfold Pd.nlargest. intros H. eapply sorted_In.
  rewrite <- (firstn_skipn n). apply in_or_app. left. exact H.
Qed.

Lemma filter_all {A} (f : A -> bool) (l : list A) :
  (forall x, In x l -> f x = true) -> List.filter f l = l.
Proof.
  induction l as [|x l IH]; simpl; intros H; [reflexivity|].
  rewrite (H x), IH; auto.
Qed.

Lemma filter_none {A} (f : A -> bool) (l : list A) :
  (forall x, In x l -> f x = false) -> List.filter f l = [].
Proof.
  induction l as [|x l IH]; simpl; intros H; [reflexivity|].
  rewrite (H x), IH; auto.
Qed.

Lemma market_top_count (rows : list CleanRow) (m' m : string) :
  count_market m (market_top rows m')
  = if String.eqb m' m then Nat.min 5 (count_market m rows) else 0.
Proof.
  unfold count_market, market_top.
  assert (forall x, In x (Pd.nlargest 5 score (List.filter (of_market m') rows)) ->
                    market_name (article x) = m') as Hin.
  { intros x Hx. apply nlargest_In, filter_In in Hx. destruct Hx as [_ Hx].
    now apply String.eqb_eq in Hx. }
  destruct (String.eqb_spec m' m) as [->|Hne].
  - rewrite filter_all, nlargest_length; [reflexivity|].
    intros x Hx. unfold of_market, in_market. rewrite (Hin x Hx). apply String.eqb_refl.
  - rewrite filter_none; [reflexivity|].
    intros x Hx. unfold of_market, in_market. rewrite (Hin x Hx).
    now apply String.eqb_neq.
Qed.

Lemma count_market_concat (m : string) (groups : list (list CleanRow)) :
  count_market m (List.concat groups) = Pd.sum_nat (map (count_market m) groups).
Proof.
  unfold count_market. induction groups as [|g groups IH]; simpl; [reflexivity|].
  now rewrite filter_app, length_app, IH.
Qed.

Lemma present_count (rows : list CleanRow) (m : string) :
  Py.contains (map (fun r => market_name (article r)) rows) m = false
  <-> count_market m rows = 0.
Proof.
  rewrite contains_false. unfold count_market. split.
  - intros H. rewrite filter_none; [reflexivity|].
    intros x Hx. apply String.eqb_neq. intros E. apply H. rewrite <- E.
    now apply (in_map (fun r => market_name (article r))).
  - intros H Hin. apply in_map_iff in Hin. destruct Hin as (r & Hm & Hr).
    assert (In r (List.filter (of_market m) rows)) as Hf.
    { apply filter_In. split; [assumption|]. unfold of_market, in_market.
      rewrite Hm. apply String.eqb_refl. }
    destruct (List.filter (of_market m) rows); [destruct Hf | discriminate H].
Qed.

Lemma top_articles_from_map (markets : list string) (rows : list CleanRow) :
  top_articles_from markets rows
  = map (market_top rows)
        (List.filter (Py.contains (map (fun r => market_name (article r)) rows)) markets).
Proof.
  induction markets as [|m markets IH]; simpl; [reflexivity|].
  destruct (Py.contains _ m); simpl; now rewrite IH.
Qed.

Lemma top_articles_from_count (markets : list string) (rows : list CleanRow) (m : string) :
  NoDup markets ->
  count_market m (List.concat (top_articles_from markets rows))
  = if Py.contains markets m then Nat.min 5 (count_market m rows) else 0.
Proof.
  intros Hn. rewrite count_market_concat, top_articles_from_map, map_map.
  induction Hn as [|m' markets Hm' Hn IH]; simpl; [reflexivity|].
  rewrite String.eqb_sym.
  destruct (Py.contains _ m') eqn:Hp; simpl.
  - rewrite IH, market_top_count.
    destruct (String.eqb_spec m' m) as [->|Hne]; simpl; [|reflexivity].
    apply contains_false in Hm'. rewrite Hm'. lia.
  - rewrite IH. destruct (String.eqb_spec m' m) as [->|Hne]; simpl; [|reflexivity].
    apply contains_false in Hm'. rewrite Hm'.
    apply present_count in Hp. rewrite Hp. reflexivity.
Qed.

Lemma market_order_NoDup : NoDup market_order.
Proof.
  unfold market_order.
  repeat (constructor; [simpl; intuition discriminate|]). constructor.
Qed.

(** The rows that reach the table come from the filtered frame; when the
    first chart has been drawn, their markets are among the five. *)
Lemma curated_rows_markets (df : DataFrame) :
  Py.is_ok (marker_color df) = true ->
  Forall (fun r => In (market_name (article r)) market_order)
         (exclude_sources (df_unique df)).
Proof.
  intros Hok. pose proof (marker_color_markets df Hok) as H.
  rewrite Forall_forall in *. intros r Hr.
  apply filter_In in Hr. destruct Hr as [Hr _].
  apply (Subseq_incl _ _ (drop_duplicates_from_Subseq _ _ _)) in Hr.
  unfold df_clean in Hr. apply in_map_iff in Hr. destruct Hr as (a & <- & Ha).
  now apply H.
Qed.

(** C7.  The table's groups are the markets of the fixed order United
    States, United Kingdom, Germany, Japan, France that have at least one
    row, in that order, each with its [nlargest(5)] rows; a market without
    rows gives no group (and nothing fails).  Whatever the market, the
    table holds at most 5 of its rows; for a market of the fixed order it
    holds 5, or all of them when there are fewer; and so it is for every
    market when the rows' markets are among the five, as they are once the
    first chart has been drawn. *)
Theorem top_articles_list_at_most_five_per_market (rows : list CleanRow) :
  market_order = ["United States"; "United Kingdom"; "Germany"; "Japan"; "France"]
  /\ top_articles_list rows
     = map (market_top rows)
           (List.filter (fun m => negb (count_market m rows =? 0)%nat) market_order)
  /\ Forall (fun g => 1 <= List.length g <= 5) (top_articles_list rows)
  /\ top_articles rows
     = (if (List.length (top_articles_list rows) =? 0)%nat then None
        else Some (List.concat (top_articles_list rows)))
  /\ (forall m, count_market m (List.concat (top_articles_list rows)) <= 5)
  /\ Forall (fun m => count_market m (List.concat (top_articles_list rows))
                      = Nat.min 5 (count_market m rows)) market_order
  /\ (Forall (fun r => In (market_name (article r)) market_order) rows ->
      forall m, count_market m (List.concat (top_articles_list rows))
                = Nat.min 5 (count_market m rows)).
Proof.
  assert (forall m, Py.contains (map (fun r => market_name (article r)) rows) m
                    = negb (count_market m rows =? 0)%nat) as Hpres.
  { intros m. pose proof (present_count rows m) as H.
    destruct (Py.contains _ m); destruct (Nat.eqb_spec (count_market m rows) 0);
      simpl; intuition congruence. }
  assert (top_articles_list rows
          = map (market_top rows)
                (List.filter (fun m => negb (count_market m rows =? 0)%nat) market_order)) as Heq.
  { unfold top_articles_list. rewrite top_articles_from_map.
    f_equal. apply filter_ext. exact Hpres. }
  split; [reflexivity|]. split; [exact Heq|]. split; [|split; [|split; [|split]]].
  2:{ unfold top_articles. now destruct (top_articles_list rows). }
  - rewrite Heq. each_row g Hg.
    apply in_map_iff in Hg. destruct Hg as (m & <- & Hm).
    apply filter_In in Hm. destruct Hm as [_ Hm].
    apply negb_true_iff, Nat.eqb_neq in Hm.
    unfold market_top. rewrite nlargest_length. fold (count_market m rows). lia.
  - intros m. unfold top_articles_list.
    rewrite (top_articles_from_count _ _ _ market_order_NoDup).
    destruct (Py.contains market_order m); lia.
  - each_row m Hm. unfold top_articles_list.
    rewrite (top_articles_from_count _ _ _ market_order_NoDup).
    apply contains_In in Hm. now rewrite Hm.
  - intros Hall m. unfold top_articles_list.
    rewrite (top_articles_from_count _ _ _ market_order_NoDup).
    destruct (Py.contains market_order m) eqn:Hm; [reflexivity|].
    apply contains_false in Hm.
    assert (count_market m rows = 0) as ->; [|reflexivity].
    apply present_count, contains_false. intros Hin.
    apply in_map_iff in Hin. destruct Hin as (r & <- & Hr).
    rewrite Forall_forall in Hall. now apply Hm, Hall.
Qed.

(** ** Geographic view *)

Lemma counter_add_nonempty (x : string) (c : list (string * nat)) :
  Pd.counter_add x c <> [].
Proof. destruct c as [|[k n] c]; simpl; [|destruct (String.eqb x k)]; discriminate. Qed.

Lemma Counter_nonempty (xs : list string) : xs <> [] -> Pd.Counter xs <> [].
Proof.
  unfold Pd.Counter.
  assert (forall ys c, c <> [] ->
            fold_left (fun c x => Pd.counter_add x c) ys c <> []) as H.
  { induction ys as [|y ys IH]; simpl; intros c Hc; [exact Hc|].
    apply IH, counter_add_nonempty. }
  destruct xs as [|x xs]; [congruence|]. intros _.
  cbn [fold_left]. apply H, counter_add_nonempty.
Qed.

Lemma top_regulator_of_ok (market_df : DataFrame) :
  exists s, top_regulator_of market_df = Ok s.
Proof.
  unfold top_regulator_of. destruct (all_regs market_df) as [|x regs] eqn:E.
  - eexists. reflexivity.
  - pose proof (Counter_nonempty (x :: regs)) as Hc.
    destruct (Pd.Counter (x :: regs)) as [|kv c]; [now exfalso; apply Hc|].
    simpl. eexists. reflexivity.
Qed.

Lemma top_category_of_ok (market_df : DataFrame) :
  market_df <> [] -> exists s, top_category_of market_df = Ok s.
Proof.
  intros Hne. unfold top_category_of.
  assert (Pd.value_counts (map category market_df) <> []) as Hv.
  { intros E. apply (f_equal (@List.length _)) in E.
    unfold Pd.value_counts, Pd.sort_desc in E. rewrite sorted_length in E.
    apply length_zero_iff_nil in E. revert E. apply Counter_nonempty.
    destruct market_df; [congruence | discriminate]. }
  destruct (Pd.value_counts (map category market_df)); [congruence|].
  simpl. eexists. reflexivity.
Qed.

Lemma map_record_spec (df : DataFrame) (m : string) :
  In m (map market_name df) ->
  match map_record df m with
  | Ok rec => Geo.market rec = m /\ In (m, Geo.iso_code rec) country_iso
              /\ Geo.article_count rec = List.length (List.filter (in_market m) df)
  | Raise e => e = KeyError m /\ ~ In m (map fst country_iso)
  end.
Proof.
  intros Hm. unfold map_record.
  destruct (top_regulator_of_ok (List.filter (in_market m) df)) as [reg ->].
  destruct (top_category_of_ok (List.filter (in_market m) df)) as [cat ->].
  { apply in_market_rows in Hm. destruct (List.filter (in_market m) df); simpl in *; [lia|discriminate]. }
  cbn [Py.bind]. pose proof (getitem_spec country_iso m) as Hg.
  destruct (Py.getitem country_iso m) as [iso|e]; cbn [Py.bind]; [|exact Hg].
  cbn. auto.
Qed.

Lemma map_data_spec (df : DataFrame) :
  match map_data df with
  | Ok records =>
      map Geo.market records = Pd.unique (map market_name df)
      /\ Forall (fun m => In m (map fst country_iso)) (map market_name df)
  | Raise e =>
      exists m, e = KeyError m /\ In m (map market_name df)
                /\ ~ In m (map fst country_iso)
  end.
Proof.
  unfold map_data.
  pose proof (for_each_spec (map_record df) (Pd.unique (map market_name df))) as H.
  destruct (Py.for_each (map_record df) (Pd.unique (map market_name df))) as [recs|e];
    simpl in H.
  - assert (forall ms, (forall m, In m ms -> In m (map market_name df)) ->
                       Forall2 (fun x y => map_record df x = Ok y) ms recs ->
                       map Geo.market recs = ms
                       /\ Forall (fun m => In m (map fst country_iso)) ms) as Hgen.
    { clear H. intros ms Hms HF. induction HF as [|m rec ms recs Hrec _ IH]; [now split|].
      pose proof (map_record_spec df m (Hms m (or_introl eq_refl))) as Hs.
      rewrite Hrec in Hs. destruct Hs as (Hmk & Hiso & _).
      destruct IH as [IH1 IH2]; [intros; apply Hms; now right|].
      simpl. split; [congruence|]. constructor; [|exact IH2].
      now apply (in_map fst) in Hiso. }
    destruct (Hgen _ (fun m => proj1 (unique_In _ m)) H) as [H1 H2].
    split; [exact H1|]. each_row m Hm.
    rewrite Forall_forall in H2. now apply H2, unique_In.
  - destruct H as (m & Hm & He). apply (proj1 (unique_In _ _)) in Hm.
    pose proof (map_record_spec df m Hm) as Hs. rewrite He in Hs.
    exists m. intuition.
Qed.

(** Against C6 as stated: [UnmappedMarket] is not the error of an unmapped
    market; with a row for Norway the loop stops at the dictionary lookup,
    in a [KeyError]. *)
Lemma map_data_unmapped_is_KeyError :
  let df := [sample "Fed holds rates" "United States" "monetary_policy" 7 "high";
             sample "Oil fund rules" "Norway" "other" 5 "medium"] in
  map_data df = Raise (KeyError "Norway")
  /\ ~ (exists e, map_data df = Raise e /\ exn_name e = "UnmappedMarket").
Proof.
  intros df. split; [reflexivity|].
  intros (e & He & Hn). vm_compute in He. inversion He; subst. discriminate Hn.
Qed.

(** C6, as amended.  If the filtered frame has a row whose market is not
    one of United States, United Kingdom, Japan, Germany, France, the map
    records are not built: the loop ends in Python's [KeyError] with such a
    market as its key; no list of records without that market comes out. *)
Theorem map_data_unmapped_market_raises_KeyError (df : DataFrame) (r : Article) :
  In r df ->
  ~ In (market_name r)
       ["United States"; "United Kingdom"; "Japan"; "Germany"; "France"] ->
  exists m,
    map_data df = Raise (KeyError m)
    /\ In m (map market_name df)
    /\ ~ In m ["United States"; "United Kingdom"; "Japan"; "Germany"; "France"].
Proof.
  intros Hr Hun. pose proof (map_data_spec df) as H.
  destruct (map_data df) as [recs|e].
  - exfalso. destruct H as [_ H]. rewrite Forall_forall in H.
    apply Hun. apply (H (market_name r)). now apply in_map.
  - destruct H as (m & -> & Hm & Hnot). exists m. auto.
Qed.

(** C6 at work: a frame whose only row is for Norway. *)
Lemma map_data_unmapped_market_witness :
  exists m,
    map_data [sample "Oil fund rules" "Norway" "other" 5 "medium"] = Raise (KeyError m)
    /\ In m (map market_name [sample "Oil fund rules" "Norway" "other" 5 "medium"])
    /\ ~ In m ["United States"; "United Kingdom"; "Japan"; "Germany"; "France"].
Proof.
  apply (map_data_unmapped_market_raises_KeyError
           [sample "Oil fund rules" "Norway" "other" 5 "medium"]
           (sample "Oil fund rules" "Norway" "other" 5 "medium")).
  - simpl. left. reflexivity.
  - simpl. intros [H|[H|[H|[H|[H|[]]]]]]; discriminate H.
Defined.

(** ** Categories by market *)

Lemma get_loc_spec (cols : list string) (c : string) :
  match get_loc cols c with
  | Ok i => i < List.length cols /\ nth_error cols i = Some c
  | Raise e => e = KeyError c /\ ~ In c cols
  end.
Proof.
  induction cols as [|c' cols IH]; simpl; [intuition|].
  destruct (String.eqb_spec c c') as [->|Hne]; [split; [lia|reflexivity]|].
  destruct (get_loc cols c) as [i|e]; simpl.
  - destruct IH. split; [lia|assumption].
  - destruct IH as [-> IH]. split; [reflexivity|]. intros [E|H]; [congruence|auto].
Qed.

Lemma get_loc_present (cols : list string) (c : string) :
  In c cols -> exists i, get_loc cols c = Ok i.
Proof.
  intros H. pose proof (get_loc_spec cols c) as Hs.
  destruct (get_loc cols c) as [i|e]; [eauto|]. destruct Hs as [_ Hs]. contradiction.
Qed.

Lemma sum_set_nth (i v : nat) (l : list nat) :
  i < List.length l ->
  Pd.sum_nat (set_nth i v l) + nth i l 0 = Pd.sum_nat l + v.
Proof.
  revert i. induction l as [|x l IH]; intros [|i] H; simpl in *; try lia.
  specialize (IH i). lia.
Qed.

Lemma sum_remove_nth (j : nat) (l : list nat) :
  j < List.length l ->
  Pd.sum_nat (remove_nth j l) + nth j l 0 = Pd.sum_nat l.
Proof.
  revert j. induction l as [|x l IH]; intros [|j] H; simpl in *; try lia.
  specialize (IH j). lia.
Qed.

Lemma nth_set_nth_other (i j v : nat) (l : list nat) :
  i <> j -> nth j (set_nth i v l) 0 = nth j l 0.
Proof.
  revert i j. induction l as [|x l IH]; intros [|i] [|j] H; simpl; try reflexivity;
    try congruence.
  apply IH. congruence.
Qed.

Lemma length_set_nth {A} (i : nat) (v : A) (l : list A) :
  List.length (set_nth i v l) = List.length l.
Proof.
  revert i. induction l as [|x l IH]; intros [|i]; simpl; try reflexivity.
  now rewrite IH.
Qed.

(** Moving a cell's count into another cell and dropping it keeps the row
    total. *)
Lemma sum_fold_cell (i j : nat) (l : list nat) :
  i <> j -> i < List.length l -> j < List.length l ->
  Pd.sum_nat (remove_nth j (set_nth i (nth i l 0 + nth j l 0) l)) = Pd.sum_nat l.
Proof.
  intros Hij Hi Hj.
  pose proof (sum_set_nth i (nth i l 0 + nth j l 0) l Hi) as H1.
  pose proof (sum_remove_nth j (set_nth i (nth i l 0 + nth j l 0) l)) as H2.
  rewrite length_set_nth, nth_set_nth_other in H2 by assumption.
  specialize (H2 Hj). lia.
Qed.

Lemma remove_nth_not_In (cols : list string) (c : string) (j : nat) :
  NoDup cols -> get_loc cols c = Ok j -> ~ In c (remove_nth j cols).
Proof.
  intros Hn. revert j. induction Hn as [|c' cols Hc' Hn IH]; simpl; intros j; [discriminate|].
  destruct (String.eqb_spec c c') as [->|Hne].
  - intros [= <-]. exact Hc'.
  - destruct (get_loc cols c) as [i|e] eqn:E; simpl; [|discriminate].
    intros [= <-]. simpl. intros [H|H]; [congruence|]. now apply (IH i).
Qed.

Lemma combine_map_both {A B C} (f : A -> B) (g : A -> C) (l : list A) :
  combine (map f l) (map g l) = map (fun x => (f x, g x)) l.
Proof. induction l; simpl; congruence. Qed.

Lemma combine_cross_border_spec (ct : CountFrame) :
  aligned ct -> NoDup (columns ct) ->
  match combine_cross_border ct with
  | Ok ct' =>
      grand_total ct' = grand_total ct
      /\ index ct' = index ct
      /\ ~ In "cross_border_investment" (columns ct')
      /\ (In "cross_border_investment" (columns ct) -> In "other" (columns ct))
  | Raise e =>
      e = KeyError "other"
      /\ In "cross_border_investment" (columns ct) /\ ~ In "other" (columns ct)
  end.
Proof.
  intros [_ Hal] Hn. unfold combine_cross_border.
  destruct (Py.contains (columns ct) "cross_border_investment") eqn:Hc.
  2:{ apply contains_false in Hc. repeat split; auto. intros H. contradiction. }
  apply contains_In in Hc. unfold get_column.
  pose proof (get_loc_spec (columns ct) "other") as Hi.
  destruct (get_loc (columns ct) "other") as [i|e] eqn:Ei; cbn [Py.bind].
  2:{ destruct Hi as [-> Hi]. auto. }
  pose proof (get_loc_spec (columns ct) "cross_border_investment") as Hj.
  destruct (get_loc (columns ct) "cross_border_investment") as [j|e] eqn:Ej;
    cbn [Py.bind]; [|destruct Hj as [_ Hj]; contradiction].
  destruct Hi as [Hi Hni], Hj as [Hj Hnj].
  assert (i <> j) as Hij by (intros ->; rewrite Hni in Hnj; discriminate).
  unfold set_column, drop_column. rewrite Ei. cbn [columns]. rewrite Ej.
  cbn [Py.bind index columns cells]. split; [|split; [reflexivity|split]].
  3:{ intros _. now apply nth_error_In in Hni. }
  - unfold grand_total, add_columns. cbn [cells].
    rewrite combine_map_both, map_map.
    replace (combine (cells ct)
                     (map (fun x => fst x + snd x)
                          (map (fun x => (nth i x 0, nth j x 0)) (cells ct))))
      with (map (fun row => (row, nth i row 0 + nth j row 0)) (cells ct)).
    2:{ rewrite map_map. cbn [fst snd].
        rewrite <- (map_id (cells ct)) at 2. now rewrite combine_map_both. }
    rewrite !map_map. cbn [fst snd]. f_equal. apply map_ext_in.
    intros row Hrow. rewrite Forall_forall in Hal. specialize (Hal row Hrow).
    apply sum_fold_cell; lia.
  - now apply remove_nth_not_In.
Qed.

Lemma filter_filter_and {A} (f g : A -> bool) (l : list A) :
  List.filter (fun x => f x && g x) l = List.filter g (List.filter f l).
Proof.
  induction l as [|x l IH]; simpl; [reflexivity|].
  destruct (f x); simpl; [destruct (g x)|]; now rewrite IH.
Qed.

Lemma crosstab_aligned (df : DataFrame) : aligned (crosstab df).
Proof.
  unfold aligned, crosstab. cbn [index columns cells]. split.
  - now rewrite length_map.
  - each_row row Hrow. apply in_map_iff in Hrow.
    destruct Hrow as (m & <- & _). apply length_map.
Qed.

Lemma crosstab_total (df : DataFrame) : grand_total (crosstab df) = List.length df.
Proof.
  unfold grand_total, crosstab. cbn [cells]. rewrite map_map.
  rewrite <- (count_by_key market_name (Pd.group_keys (map market_name df)) df).
  - apply sum_nat_map_ext. intros m _.
    rewrite <- (count_by_key category (Pd.group_keys (map category df))
                             (List.filter (fun r => String.eqb (market_name r) m) df)).
    + apply sum_nat_map_ext. intros c _. unfold cell_count.
      now rewrite filter_filter_and.
    + apply group_keys_NoDup.
    + each_row r Hr. apply filter_In in Hr.
      apply group_keys_In. now apply in_map.
  - apply group_keys_NoDup.
  - each_row r Hr. apply group_keys_In. now apply in_map.
Qed.

Lemma map_snd_combine {A B} (l : list A) (l' : list B) :
  List.length l = List.length l' -> map snd (combine l l') = l'.
Proof.
  revert l'. induction l as [|x l IH]; intros [|y l'] H; simpl in *; try congruence.
  f_equal. apply IH. lia.
Qed.

Lemma map_fst_combine_eq {A B} (l : list A) (l' : list B) :
  List.length l = List.length l' -> map fst (combine l l') = l.
Proof.
  revert l'. induction l as [|x l IH]; intros [|y l'] H; simpl in *; try congruence.
  f_equal. apply IH. lia.
Qed.

Lemma by_row_total_spec (ct : CountFrame) :
  aligned ct ->
  aligned (by_row_total ct)
  /\ columns (by_row_total ct) = columns ct
  /\ Permutation (cells (by_row_total ct)) (cells ct)
  /\ grand_total (by_row_total ct) = grand_total ct
  /\ StronglySorted (fun a b => Pd.sum_nat b <= Pd.sum_nat a) (cells (by_row_total ct)).
Proof.
  intros [Hlen Hal]. unfold by_row_total.
  set (rows := Pd.sort_desc (fun r => Pd.sum_nat (snd r)) (combine (index ct) (cells ct))).
  assert (Permutation (map snd rows) (cells ct)) as Hp.
  { rewrite <- (map_snd_combine (index ct) (cells ct) Hlen) at 1.
    apply Permutation_map, sorted_perm. }
  unfold aligned. cbn [index columns cells]. repeat split.
  - now rewrite !length_map.
  - each_row row Hrow. rewrite Forall_forall in Hal.
    apply Hal. now apply (Permutation_in _ Hp).
  - exact Hp.
  - unfold grand_total. cbn [cells]. apply sum_nat_perm. now apply Permutation_map.
  - pose proof (sort_desc_sorted (fun r : string * list nat => Pd.sum_nat (snd r))
                                 (combine (index ct) (cells ct))) as Hs.
    fold rows in Hs. clearbody rows. clear -Hs.
    induction Hs as [|r rows Hs IH Hr]; simpl; constructor; [exact IH|].
    each_row y Hy. apply in_map_iff in Hy.
    destruct Hy as (r' & <- & Hr'). rewrite Forall_forall in Hr. now apply Hr.
Qed.

(** Where the fold goes through, the table has the market rows by row
    total, no cross-border column, and cells that add up to the size of the
    filtered frame. *)
Lemma category_market_total (df : DataFrame) :
  match category_market df with
  | Ok ct =>
      grand_total ct = List.length df
      /\ ~ In "cross_border_investment" (columns ct)
      /\ Permutation (index ct) (Pd.group_keys (map market_name df))
      /\ (In "cross_border_investment" (map category df) -> In "other" (map category df))
  | Raise e =>
      e = KeyError "other"
      /\ In "cross_border_investment" (map category df)
      /\ ~ In "other" (map category df)
  end.
Proof.
  unfold category_market.
  destruct (by_row_total_spec (crosstab df) (crosstab_aligned df))
    as (Hal & Hcols & _ & Htot & _).
  pose proof (combine_cross_border_spec (by_row_total (crosstab df)) Hal) as H.
  rewrite Hcols in H. cbn [crosstab columns] in H.
  specialize (H (group_keys_NoDup _)).
  destruct (combine_cross_border (by_row_total (crosstab df))) as [ct|e].
  - destruct H as (Ht & Hi & Hc & Ho). split; [|split; [|split]].
    + now rewrite Ht, Htot, crosstab_total.
    + exact Hc.
    + rewrite Hi. unfold by_row_total. cbn [index].
      transitivity (map fst (combine (index (crosstab df)) (cells (crosstab df)))).
      * apply Permutation_map, sorted_perm.
      * rewrite map_fst_combine_eq; [reflexivity|].
        unfold crosstab. cbn [index cells]. now rewrite length_map.
    + rewrite !group_keys_In in Ho. exact Ho.
  - destruct H as (-> & Hc & Ho). rewrite !group_keys_In in *. auto.
Qed.

(** C4.  The fold reads the column "other" before it adds to it.  A
    filtered frame with a cross-border article and no article of category
    "other" has no such column, and the table is not built: the run ends in
    [KeyError: 'other'].  This is the one way the table fails; with an
    "other" column (or no cross-border column) the cells add up to the size
    of the filtered frame. *)
Theorem category_market_without_other_raises :
  (let df := [sample "Foreign ownership cap" "Japan" "cross_border_investment" 6 "medium"] in
   crosstab df = mkCounts ["Japan"] ["cross_border_investment"] [[1]]
   /\ category_market df = Raise (KeyError "other"))
  /\ (forall df,
        category_market df = Raise (KeyError "other")
        <-> (In "cross_border_investment" (map category df)
             /\ ~ In "other" (map category df)))
  /\ (forall df ct, category_market df = Ok ct -> grand_total ct = List.length df).
Proof.
  split; [split; reflexivity|]. split.
  - intros df. pose proof (category_market_total df) as H. split.
    + intros E. rewrite E in H. tauto.
    + intros [Hc Ho]. destruct (category_market df) as [ct|e].
      * exfalso. destruct H as (_ & _ & _ & H). auto.
      * destruct H as [-> _]. reflexivity.
  - intros df ct E. pose proof (category_market_total df) as H.
    rewrite E in H. tauto.
Qed.

(** ** Worked examples *)

(** Two Japan articles scored 9 and 3, minimum relevance 5: one row is
    left, and the summary shows Japan with one article of mean 9. *)
Example filter_then_overview :
  let df := [sample "BoJ ends negative rates" "Japan" "monetary_policy" 9 "high";
             sample "FSA consults on disclosure" "Japan" "monetary_policy" 3 "low"] in
  let fs := mkFilter ["Japan"] 5 ["monetary_policy"] ["high"; "medium"; "low"] in
  map title (df_filtered fs df) = ["BoJ ends negative rates"]
  /\ market_overview (df_filtered fs df) = [Overview.mk "Japan" 1 (Some (Qmake 9 1))].
Proof. split; reflexivity. Qed.

(** An article of an excluded source does not reach the table, whatever its
    score. *)
Example excluded_source_not_curated :
  let a := mkArticle "Token listing rules" 0 "United States" "other" 10 "high"
                     None "Cointelegraph" "" in
  let b := sample "Fed holds rates" "United States" "monetary_policy" 7 "high" in
  option_map (map (fun r => title (article r))) (curated [a; b])
  = Some ["Fed holds rates"].
Proof. reflexivity. Qed.

(** The label of a snapshot name is its date and time parts. *)
Example load_data_label :
  load_data (fun _ => Ok [])
            ["analyzed_articles_20240101_120000.json"; "raw_articles.json";
             "analyzed_articles_20240301_093000.json"]
  = Ok ([], "20240301_093000").
Proof. reflexivity. Qed.

(* ================================================================ *)
(** * Further properties of the script *)

(** ** The filter: what it keeps, and how filters compose *)

Lemma filter_length_all {A} (f : A -> bool) (l : list A) :
  List.length (List.filter f l) = List.length l -> Forall (fun x => f x = true) l.
Proof.
  induction l as [|x l IH]; simpl; intros H; [constructor|].
  pose proof (Subseq_length _ _ (Subseq_filter f l)) as Hle.
  destruct (f x) eqn:E; simpl in H; [|lia].
  constructor; [exact E | apply IH; lia].
Qed.

Lemma filter_filter_comm {A} (f g : A -> bool) (l : list A) :
  List.filter f (List.filter g l) = List.filter g (List.filter f l).
Proof.
  induction l as [|x l IH]; simpl; [reflexivity|].
  destruct (f x) eqn:Ef, (g x) eqn:Eg; simpl; rewrite ?Ef, ?Eg, IH; reflexivity.
Qed.

Lemma filter_narrow {A} (f g : A -> bool) (l : list A) :
  (forall x, g x = true -> f x = true) ->
  List.filter g (List.filter f l) = List.filter g l.
Proof.
  intros H. induction l as [|x l IH]; simpl; [reflexivity|].
  destruct (f x) eqn:Ef; simpl.
  - now rewrite IH.
  - destruct (g x) eqn:Eg; [|exact IH]. apply H in Eg. congruence.
Qed.

(** X1.  A row is in the filtered frame exactly when it is in the frame and
    passes the four tests; and the filter leaves the frame's size unchanged
    exactly when every row passes them. *)
Theorem df_filtered_complete (fs : FilterState) (df : DataFrame) :
  (forall r, In r (df_filtered fs df) <-> In r df /\ satisfies fs r)
  /\ (List.length (df_filtered fs df) = List.length df <-> Forall (satisfies fs) df)
  /\ (Forall (satisfies fs) df <-> df_filtered fs df = df).
Proof.
  unfold df_filtered. split; [|split].
  - intros r. now rewrite filter_In, filter_mask_spec.
  - split.
    + intros H. apply filter_length_all in H.
      eapply Forall_impl; [|exact H]. intros r. apply filter_mask_spec.
    + intros H. rewrite filter_all; [reflexivity|].
      intros r Hr. rewrite Forall_forall in H. now apply filter_mask_spec, H.
  - split.
    + intros H. apply filter_all.
      intros r Hr. rewrite Forall_forall in H. now apply filter_mask_spec, H.
    + intros H. each_row r Hr. rewrite <- H in Hr.
      apply filter_In in Hr. now apply filter_mask_spec.
Qed.

(** X2.  Two filter states can be applied in either order, and applying one
    twice is applying it once. *)
Theorem df_filtered_commutes (fs fs' : FilterState) (df : DataFrame) :
  df_filtered fs (df_filtered fs' df) = df_filtered fs' (df_filtered fs df)
  /\ df_filtered fs (df_filtered fs df) = df_filtered fs df.
Proof.
  unfold df_filtered. split; [apply filter_filter_comm|].
  now apply filter_narrow.
Qed.

(** X3.  Narrowing the widgets (fewer markets, categories or impact levels,
    a higher minimum) only removes rows: the new result is the old result
    filtered again, rows in the same order. *)
Theorem df_filtered_narrowing (fs fs' : FilterState) (df : DataFrame) :
  incl (selected_markets fs') (selected_markets fs) ->
  (min_relevance fs <= min_relevance fs')%Z ->
  incl (selected_categories fs') (selected_categories fs) ->
  incl (selected_impact fs') (selected_impact fs) ->
  df_filtered fs' df = df_filtered fs' (df_filtered fs df)
  /\ Subseq (df_filtered fs' df) (df_filtered fs df).
Proof.
  intros Hm Hr Hc Hi.
  assert (df_filtered fs' df = df_filtered fs' (df_filtered fs df)) as E.
  { unfold df_filtered. symmetry. apply filter_narrow.
    intros r. rewrite !filter_mask_spec. unfold satisfies.
    intros (H1 & H2 & H3 & H4). repeat split; auto. lia. }
  split; [exact E|]. rewrite E. apply Subseq_filter.
Qed.

(** X3 at work: raising the minimum relevance from 0 to 5. *)
Lemma df_filtered_narrowing_witness :
  let df := [sample "BoJ ends negative rates" "Japan" "monetary_policy" 9 "high";
             sample "FSA consults on disclosure" "Japan" "monetary_policy" 3 "low"] in
  let fs := mkFilter ["Japan"] 0 ["monetary_policy"] ["high"; "low"] in
  let fs' := mkFilter ["Japan"] 5 ["monetary_policy"] ["high"; "low"] in
  df_filtered fs' df = df_filtered fs' (df_filtered fs df)
  /\ Subseq (df_filtered fs' df) (df_filtered fs df).
Proof.
  apply df_filtered_narrowing; simpl; try lia; intros x Hx; exact Hx.
Defined.

(** X4.  With the widgets untouched the whole frame is shown, except the
    rows whose relevance is negative or whose impact level is not one of
    high, medium, low: those are hidden from the start. *)
Theorem default_filter_shows (df : DataFrame) :
  df_filtered (default_filter df) df
  = List.filter (fun r => (0 <=? relevance_score r)%Z
                          && Pd.isin ["high"; "medium"; "low"] (impact_level r)) df
  /\ (df_filtered (default_filter df) df = df
      <-> Forall (fun r => (0 <= relevance_score r)%Z
                           /\ In (impact_level r) ["high"; "medium"; "low"]) df).
Proof.
  assert (forall r, In r df ->
            filter_mask (default_filter df) r
            = (0 <=? relevance_score r)%Z
              && Pd.isin ["high"; "medium"; "low"] (impact_level r)) as Hmask.
  { intros r Hr. unfold filter_mask, default_filter, Pd.isin. cbn [selected_markets
      min_relevance selected_categories selected_impact].
    assert (Py.contains (Pd.unique (map market_name df)) (market_name r) = true) as ->
      by (apply contains_In, unique_In; now apply in_map).
    assert (Py.contains (Pd.unique (map category df)) (category r) = true) as ->
      by (apply contains_In, unique_In; now apply in_map).
    now rewrite andb_true_r. }
  assert (df_filtered (default_filter df) df
          = List.filter (fun r => (0 <=? relevance_score r)%Z
                                  && Pd.isin ["high"; "medium"; "low"] (impact_level r)) df)
    as E.
  { unfold df_filtered. apply filter_ext_in. exact Hmask. }
  split; [exact E|]. rewrite E. split.
  - intros H. each_row r Hr. rewrite <- H in Hr. apply filter_In in Hr.
    destruct Hr as [_ Hr]. apply andb_true_iff in Hr. destruct Hr as [H1 H2].
    split; [now apply Z.leb_le | now apply contains_In].
  - intros H. apply filter_all. intros r Hr. rewrite Forall_forall in H.
    destruct (H r Hr) as [H1 H2]. apply andb_true_iff.
    split; [now apply Z.leb_le | now apply contains_In].
Qed.

(** ** The snapshot loader: listing order, and the label *)

Lemma latest_file_perm (dir dir' : list string) :
  Permutation dir dir' -> latest_file dir = latest_file dir'.
Proof.
  intros Hp.
  assert (forall f, In f (glob dir) <-> In f (glob dir')) as Hin.
  { intros f. rewrite !glob_In. split; intros [H1 H2]; split; try assumption;
      [apply (Permutation_in _ Hp) | apply (Permutation_in _ (Permutation_sym Hp))];
      assumption. }
  pose proof (latest_file_spec dir) as H. pose proof (latest_file_spec dir') as H'.
  destruct (latest_file dir) as [f|e], (latest_file dir') as [f'|e'].
  - destruct H as [Hf Hmax], H' as [Hf' Hmax']. rewrite Forall_forall in *.
    f_equal. apply String.leb_antisym.
    + apply Hmax', Hin, Hf.
    + apply Hmax, Hin, Hf'.
  - destruct H as [Hf _], H' as [_ Hnil]. apply Hin in Hf. rewrite Hnil in Hf. destruct Hf.
  - destruct H as [_ Hnil], H' as [Hf _]. apply Hin in Hf. rewrite Hnil in Hf. destruct Hf.
  - destruct H as [-> _], H' as [-> _]. reflexivity.
Qed.

(** X5.  What is loaded does not depend on the order in which the
    directory lists its files, nor on the files whose names do not match. *)
Theorem load_data_listing_order
    (read_json : string -> result DataFrame) (dir dir' other : list string) :
  Permutation dir dir' ->
  Forall (fun g => glob_match g = false) other ->
  load_data read_json (other ++ dir') = load_data read_json dir.
Proof.
  intros Hp Ho. unfold load_data.
  assert (latest_file (other ++ dir') = latest_file dir') as ->.
  { unfold latest_file, glob. rewrite filter_app.
    rewrite (filter_none glob_match other); [reflexivity|].
    intros g Hg. rewrite Forall_forall in Ho. now apply Ho. }
  now rewrite (latest_file_perm _ _ Hp).
Qed.

(** X5 at work: two listings of the same two snapshots, and a stray file. *)
Lemma load_data_listing_order_witness :
  load_data (fun _ => Ok [])
            (["notes.txt"] ++ ["analyzed_articles_20240301_093000.json";
                               "analyzed_articles_20240101_120000.json"])
  = load_data (fun _ => Ok [])
              ["analyzed_articles_20240101_120000.json";
               "analyzed_articles_20240301_093000.json"].
Proof.
  apply load_data_listing_order.
  - apply perm_swap.
  - repeat constructor.
Defined.

Section Labels.
Local Open Scope string_scope.

Lemma append_assoc (a b c : string) : (a ++ b) ++ c = a ++ (b ++ c).
Proof. induction a as [|x a IH]; simpl; [reflexivity|]. now rewrite IH. Qed.

Lemma split_no_sep (sep : ascii) (x : string) :
  ~ In sep (list_ascii_of_string x) -> split sep x = [x].
Proof.
  induction x as [|c x IH]; simpl; intros H; [reflexivity|].
  destruct (Ascii.eqb_spec c sep) as [->|Hne]; [exfalso; apply H; now left|].
  rewrite IH; [reflexivity|]. intros Hin. apply H. now right.
Qed.

Lemma split_app_sep (sep : ascii) (x y : string) :
  ~ In sep (list_ascii_of_string x) ->
  split sep (x ++ String sep y) = x :: split sep y.
Proof.
  induction x as [|c x IH]; simpl; intros H.
  - now rewrite Ascii.eqb_refl.
  - destruct (Ascii.eqb_spec c sep) as [->|Hne]; [exfalso; apply H; now left|].
    rewrite IH; [reflexivity|]. intros Hin. apply H. now right.
Qed.

Lemma substring_skip_app (a b : string) (m : nat) :
  substring (String.length a) m (a ++ b) = substring 0 m b.
Proof. induction a as [|c a IH]; simpl; [reflexivity|exact IH]. Qed.

Lemma substring_0_app_exact (a b : string) (n : nat) :
  String.length a = n -> substring 0 n (a ++ b) = a.
Proof. intros <-. apply substring_0_app. Qed.

(** X6.  For a snapshot named [analyzed_articles_<date>_<time>.json], with
    no underscore inside the date or the time, the label that the loader
    returns is [<date>_<time>]. *)
Theorem load_data_label_round_trip
    (read_json : string -> result DataFrame) (dir : list string)
    (date time : string) (df : DataFrame) :
  no_underscore date -> no_underscore time ->
  latest_file dir = Ok ("analyzed_articles_" ++ date ++ "_" ++ time ++ ".json") ->
  read_json ("analyzed_articles_" ++ date ++ "_" ++ time ++ ".json") = Ok df ->
  load_data read_json dir = Ok (df, date ++ "_" ++ time).
Proof.
  intros Hd Ht Hl Hr. unfold load_data. rewrite Hl. cbn [Py.bind]. rewrite Hr.
  cbn [Py.bind].
  assert (stem ("analyzed_articles_" ++ date ++ "_" ++ time ++ ".json")
          = "analyzed_articles_" ++ date ++ "_" ++ time) as ->.
  { replace ("analyzed_articles_" ++ date ++ "_" ++ time ++ ".json")
      with (("analyzed_articles_" ++ date ++ "_" ++ time) ++ ".json")
      by (now rewrite !append_assoc).
    unfold stem. rewrite rfind_dot_json.
    assert ((0 <? String.length ("analyzed_articles_" ++ date ++ "_" ++ time))%nat = true)
      as -> by (apply Nat.ltb_lt; rewrite length_append; simpl; lia).
    assert ((String.length ("analyzed_articles_" ++ date ++ "_" ++ time)
             <? String.length (("analyzed_articles_" ++ date ++ "_" ++ time) ++ ".json") - 1)%nat
            = true) as ->
      by (apply Nat.ltb_lt; rewrite (length_append _ ".json"); simpl; lia).
    cbn [andb]. apply substring_0_app. }
  assert (split "_" (date ++ String "_" time) = [date; time]) as E.
  { rewrite split_app_sep by exact Hd. now rewrite split_no_sep. }
  assert (split "_" ("analyzed_articles_" ++ date ++ "_" ++ time)
          = ["analyzed"; "articles"; date; time]) as ->.
  { cbn. now rewrite E. }
  reflexivity.
Qed.

(** X6 at work: the snapshot of 1 March 2024, 09:30:00. *)
Lemma load_data_label_round_trip_witness :
  load_data (fun _ => Ok []) ["analyzed_articles_20240301_093000.json"]
  = Ok ([], "20240301" ++ "_" ++ "093000").
Proof.
  apply (load_data_label_round_trip (fun _ => Ok [])
           ["analyzed_articles_20240301_093000.json"] "20240301" "093000" []).
  - unfold no_underscore. simpl. intros H.
    repeat (destruct H as [H|H]; [discriminate H|]). exact H.
  - unfold no_underscore. simpl. intros H.
    repeat (destruct H as [H|H]; [discriminate H|]). exact H.
  - reflexivity.
  - reflexivity.
Defined.

(** X7.  For a label whose date part has eight characters, the header shows
    the date, a dash, then the underscore and the first five characters of
    the time: of a six-digit time the last digit is not shown. *)
Theorem last_updated_cuts_time (date time : string) :
  String.length date = 8 ->
  last_updated (date ++ "_" ++ time) = date ++ "-_" ++ substring 0 5 time.
Proof.
  intros Hlen. unfold last_updated.
  rewrite (substring_0_app_exact date _ 8 Hlen).
  rewrite <- Hlen at 1. rewrite substring_skip_app. reflexivity.
Qed.

(** X7 at work: the label of the snapshot of 09:30:00. *)
Lemma last_updated_cuts_time_witness :
  last_updated ("20240301" ++ "_" ++ "093000") = "20240301" ++ "-_" ++ "09300".
Proof.
  apply (last_updated_cuts_time "20240301" "093000"). reflexivity.
Defined.

End Labels.

(** ** Key insights on a filtered frame *)

Lemma truediv_pct (a b : nat) :
  a <= b -> 1 <= b ->
  exists q, Py.truediv a b = Ok q /\ (0 <= q * 100)%Q /\ (q * 100 <= 100)%Q.
Proof.
  intros Hab Hb. destruct b as [|b]; [lia|]. eexists. split; [reflexivity|].
  unfold Qle, Qmult. cbn [Qnum Qden].
  rewrite <- Pos.of_nat_succ, Pos.mul_1_r, Zpos_P_of_succ_nat. lia.
Qed.

Lemma nunique_le (xs : list string) : Pd.nunique xs <= List.length xs.
Proof.
  unfold Pd.nunique, Pd.unique, Pd.drop_duplicates.
  apply Subseq_length, drop_duplicates_from_Subseq.
Qed.

(** X8.  On the frame that a filter leaves, the four cards are shown without
    an exception exactly when the filter leaves at least one row. *)
Theorem key_insights_ok_iff_rows (df : DataFrame) (fs : FilterState) (shown : list Metric) :
  snd (key_insights df (df_filtered fs df) shown) = Ok tt
  <-> df_filtered fs df <> [].
Proof.
  split.
  - intros H E. rewrite E in H.
    destruct df; discriminate H.
  - intros H.
    assert (df <> []) as Hd.
    { intros ->. now apply H. }
    destruct (key_insights_nonempty df (df_filtered fs df) shown Hd H) as (cards & -> & _).
    reflexivity.
Qed.

(** X9.  Whatever the filter, every card that is shown carries numbers in
    range: counts of at most the number of loaded articles, percentages
    between 0 and 100. *)
Theorem key_insights_cards_in_range (df : DataFrame) (fs : FilterState) :
  Forall (card_in_range (List.length df)) (fst (key_insights df (df_filtered fs df) [])).
Proof.
  pose proof (Subseq_length _ _ (Subseq_filter (filter_mask fs) df)) as Hle.
  fold (df_filtered fs df) in Hle.
  set (f := df_filtered fs df) in *.
  assert (List.length (List.filter is_high f) <= List.length f) as Hhigh
    by apply Subseq_length, Subseq_filter.
  pose proof (nunique_le (map market_name f)) as Hn. rewrite length_map in Hn.
  unfold key_insights, sbind, lift, st_metric.
  destruct df as [|a df].
  - constructor.
  - destruct (truediv_pct (List.length f) (List.length (a :: df)) Hle) as (q & -> & Hq);
      [simpl; lia|].
    destruct f as [|b f].
    + cbn -[Qmult].
      repeat (apply Forall_cons; [unfold card_in_range; cbn -[Qmult]; split|]);
        try apply Forall_nil; try tauto; lia.
    + destruct (truediv_pct (List.length (List.filter is_high (b :: f)))
                            (List.length (b :: f)) Hhigh) as (q' & -> & Hq');
        [simpl; lia|].
      cbn -[Qmult Pd.nunique List.filter List.length].
      repeat (apply Forall_cons;
              [unfold card_in_range;
               cbn -[Qmult Pd.nunique List.filter List.length]; split|]);
        try apply Forall_nil; try tauto; cbn [map] in Hn; lia.
Qed.

(** ** Means and medians per market *)

Lemma sum_Z_bounds (lo hi : Z) (xs : list Z) :
  Forall (fun z => (lo <= z <= hi)%Z) xs ->
  (lo * Z.of_nat (List.length xs) <= Pd.sum_Z xs <= hi * Z.of_nat (List.length xs))%Z.
Proof.
  induction 1 as [|z xs Hz _ IH]; [simpl; lia|].
  change (Pd.sum_Z (z :: xs)) with (z + Pd.sum_Z xs)%Z.
  cbn [List.length]. rewrite Nat2Z.inj_succ. lia.
Qed.

Lemma mean_bounds (lo hi : Z) (xs : list Z) :
  xs <> [] -> Forall (fun z => (lo <= z <= hi)%Z) xs ->
  mean_within lo hi (Pd.mean xs).
Proof.
  intros Hne Hall. pose proof (sum_Z_bounds lo hi xs Hall) as Hs.
  destruct xs as [|z xs]; [congruence|]. unfold Pd.mean. eexists. split; [reflexivity|].
  unfold Qle. cbn [Qnum Qden inject_Z].
  cbn [List.length] in *. rewrite <- Pos.of_nat_succ, Zpos_P_of_succ_nat.
  rewrite Nat2Z.inj_succ in Hs. lia.
Qed.

(** X10.  If every relevance score of the filtered frame lies between two
    integers (0 and 10 for the data the charts expect), so does the mean
    relevance of every row of the market summary; it is never NaN. *)
Theorem market_overview_mean_in_range (lo hi : Z) (df : DataFrame) :
  Forall (fun r => (lo <= relevance_score r <= hi)%Z) df ->
  Forall (fun row => mean_within lo hi (Overview.avg_relevance row)) (market_overview df).
Proof.
  intros Hall. each_row row Hrow.
  apply (Permutation_in _ (market_overview_perm df)) in Hrow.
  unfold market_groups in Hrow. apply in_map_iff in Hrow.
  destruct Hrow as (m & <- & Hm). cbn [Overview.avg_relevance].
  apply mean_bounds.
  - apply group_keys_In, in_market_rows in Hm.
    destruct (List.filter (in_market m) df); simpl in *; [lia|discriminate].
  - each_row z Hz. apply in_map_iff in Hz. destruct Hz as (r & <- & Hr).
    apply filter_In in Hr. rewrite Forall_forall in Hall. now apply Hall.
Qed.

(** X10 at work: two scores, 9 and 3, within 0 and 10. *)
Lemma market_overview_mean_in_range_witness :
  Forall (fun row => mean_within 0 10 (Overview.avg_relevance row))
         (market_overview [sample "BoJ ends negative rates" "Japan" "monetary_policy" 9 "high";
                           sample "FSA consults on disclosure" "Japan" "monetary_policy" 3 "low"]).
Proof.
  apply market_overview_mean_in_range.
  repeat (apply Forall_cons; [unfold sample; cbn [relevance_score]; lia|]).
  apply Forall_nil.
Defined.

Lemma q_ge_total (a b : option Q) : q_ge a b = true \/ q_ge b a = true.
Proof.
  destruct a as [x|], b as [y|]; simpl; auto.
  rewrite !Qle_bool_iff. destruct (Qlt_le_dec x y) as [H|H]; [right|left]; auto.
  now apply Qlt_le_weak.
Qed.

Lemma q_ge_trans (a b c : option Q) :
  q_ge a b = true -> q_ge b c = true -> q_ge a c = true.
Proof.
  destruct a as [x|], b as [y|], c as [z|]; simpl; try congruence.
  rewrite !Qle_bool_iff. intros H1 H2. now apply (Qle_trans _ y).
Qed.

Lemma for_each_is_ok {A B} (body : A -> result B) (items : list A) :
  Py.is_ok (Py.for_each body items) = forallb (fun x => Py.is_ok (body x)) items.
Proof.
  induction items as [|x items IH]; simpl; [reflexivity|].
  destruct (body x); simpl; [|reflexivity].
  rewrite <- IH. now destruct (Py.for_each body items).
Qed.

Lemma forallb_perm {A} (f : A -> bool) (l l' : list A) :
  Permutation l l' -> forallb f l = forallb f l'.
Proof.
  induction 1; simpl; try congruence.
  - destruct (f x), (f y); reflexivity.
Qed.

Lemma relevance_order_perm (df : DataFrame) :
  Permutation (relevance_order df) (Pd.group_keys (map market_name df)).
Proof.
  unfold relevance_order.
  transitivity (map fst (market_medians df)).
  - apply Permutation_map, sorted_perm.
  - unfold market_medians. rewrite map_map. cbn [fst]. now rewrite map_id.
Qed.

(** X11.  The box plots come one per market present in the filtered frame,
    by median relevance, largest first; and their colours are found exactly
    when the colours of the bar chart are. *)
Theorem relevance_order_by_median (df : DataFrame) :
  NoDup (relevance_order df)
  /\ (forall m, In m (relevance_order df) <-> In m (map market_name df))
  /\ StronglySorted (fun a b => q_ge (median_of df a) (median_of df b) = true)
                    (relevance_order df)
  /\ Py.is_ok (box_colors df) = Py.is_ok (marker_color df).
Proof.
  pose proof (relevance_order_perm df) as Hp.
  split; [|split; [|split]].
  - eapply Permutation_NoDup; [symmetry; exact Hp | apply group_keys_NoDup].
  - intros m. rewrite <- (group_keys_In (map market_name df)).
    split; apply Permutation_in; [|symmetry]; exact Hp.
  - unfold relevance_order.
    set (cmp := fun a b : string * option Q => q_ge (snd a) (snd b)).
    assert (StronglySorted (fun a b => cmp a b = true)
                           (Py.sorted cmp (market_medians df))) as Hs.
    { apply sorted_StronglySorted; unfold cmp.
      - intros a b. apply q_ge_total.
      - intros a b c. apply q_ge_trans. }
    assert (Forall (fun p => snd p = median_of df (fst p))
                   (Py.sorted cmp (market_medians df))) as Hinv.
    { each_row p Hp'. apply sorted_In in Hp'. unfold market_medians in Hp'.
      apply in_map_iff in Hp'. destruct Hp' as (m & <- & _). reflexivity. }
    induction Hs as [|p l Hs IH Hp']; simpl; constructor.
    + apply IH. now inversion Hinv.
    + inversion Hinv as [|? ? Hpe Hle]; subst.
      each_row m Hm. apply in_map_iff in Hm. destruct Hm as (p' & <- & Hin).
      rewrite Forall_forall in Hp', Hle. rewrite <- Hpe, <- (Hle p' Hin).
      now apply Hp'.
  - unfold box_colors, marker_color. rewrite !for_each_is_ok.
    apply forallb_perm. rewrite Hp. symmetry. apply market_overview_markets.
Qed.

(** ** The finished category table, cell by cell *)

Lemma nth_map_loc (g : string -> nat) (cs : list string) (k : string) (i : nat) :
  get_loc cs k = Ok i -> nth i (map g cs) 0 = g k.
Proof.
  revert i. induction cs as [|c cs IH]; simpl; intros i; [discriminate|].
  destruct (String.eqb_spec k c) as [->|Hne]; [now intros [= <-]|].
  destruct (get_loc cs k) as [i'|e]; simpl; [|discriminate].
  intros [= <-]. now apply IH.
Qed.

Lemma set_nth_map_loc (g : string -> nat) (cs : list string) (k : string) (i v : nat) :
  NoDup cs -> get_loc cs k = Ok i ->
  set_nth i v (map g cs) = map (fun c => if String.eqb c k then v else g c) cs.
Proof.
  intros Hn. revert i. induction Hn as [|c cs Hc Hn IH]; simpl; intros i; [discriminate|].
  destruct (String.eqb_spec k c) as [->|Hne].
  - intros [= <-]. rewrite String.eqb_refl. simpl. f_equal.
    apply map_ext_in. intros c' Hc'.
    destruct (String.eqb_spec c' c) as [->|]; [contradiction|reflexivity].
  - destruct (get_loc cs k) as [i'|e]; simpl; [|discriminate].
    intros [= <-]. simpl. rewrite (IH i' eq_refl).
    destruct (String.eqb_spec c k); [congruence|reflexivity].
Qed.

Lemma remove_nth_map {A B} (h : A -> B) (j : nat) (l : list A) :
  remove_nth j (map h l) = map h (remove_nth j l).
Proof.
  revert j. induction l as [|x l IH]; intros [|j]; simpl; try reflexivity.
  now rewrite IH.
Qed.

Lemma remove_nth_filter (cs : list string) (k : string) (j : nat) :
  NoDup cs -> get_loc cs k = Ok j ->
  remove_nth j cs = List.filter (fun c => negb (String.eqb c k)) cs.
Proof.
  intros Hn. revert j. induction Hn as [|c cs Hc Hn IH]; simpl; intros j; [discriminate|].
  destruct (String.eqb_spec k c) as [->|Hne].
  - intros [= <-]. rewrite String.eqb_refl. simpl. symmetry. apply filter_all.
    intros c' Hc'. destruct (String.eqb_spec c' c) as [->|]; [contradiction|reflexivity].
  - destruct (get_loc cs k) as [j'|e]; simpl; [|discriminate].
    intros [= <-]. simpl. rewrite (IH j' eq_refl).
    destruct (String.eqb_spec c k); [congruence|reflexivity].
Qed.

Lemma cell_count_absent (df : DataFrame) (m c : string) :
  ~ In c (map category df) -> cell_count df m c = 0.
Proof.
  intros H. unfold cell_count. rewrite filter_none; [reflexivity|].
  intros r Hr. apply andb_false_iff. right. apply String.eqb_neq.
  intros E. apply H. rewrite <- E. now apply in_map.
Qed.

Lemma row_total (df : DataFrame) (m : string) :
  Pd.sum_nat (map (cell_count df m) (Pd.group_keys (map category df))) = market_size df m.
Proof.
  unfold market_size.
  rewrite <- (count_by_key category (Pd.group_keys (map category df))
                           (List.filter (in_market m) df)).
  - apply sum_nat_map_ext. intros c _. unfold cell_count.
    now rewrite filter_filter_and.
  - apply group_keys_NoDup.
  - each_row r Hr. apply filter_In in Hr. apply group_keys_In. now apply in_map.
Qed.

(** The rows of the table before the fold: each market with its counts,
    largest market first. *)
Lemma by_row_total_rows (df : DataFrame) :
  cells (by_row_total (crosstab df))
  = map (fun m => map (cell_count df m) (Pd.group_keys (map category df)))
        (index (by_row_total (crosstab df)))
  /\ StronglySorted (fun a b => market_size df b <= market_size df a)
                    (index (by_row_total (crosstab df))).
Proof.
  unfold by_row_total, crosstab. cbn [index columns cells].
  set (cs := Pd.group_keys (map category df)).
  set (ms := Pd.group_keys (map market_name df)).
  set (rows := Pd.sort_desc (fun r : string * list nat => Pd.sum_nat (snd r))
                            (combine ms (map (fun m => map (cell_count df m) cs) ms))).
  assert (Forall (fun p => snd p = map (cell_count df (fst p)) cs) rows) as Hinv.
  { each_row p Hp. apply sorted_In in Hp.
    rewrite <- (map_id ms) in Hp at 1. rewrite combine_map_both in Hp.
    apply in_map_iff in Hp. destruct Hp as (m & <- & _). reflexivity. }
  split.
  - rewrite map_map. apply map_ext_in. intros p Hp.
    rewrite Forall_forall in Hinv. now apply Hinv.
  - pose proof (sort_desc_sorted (fun r : string * list nat => Pd.sum_nat (snd r))
                                 (combine ms (map (fun m => map (cell_count df m) cs) ms)))
      as Hs.
    fold rows in Hs. clearbody rows.
    induction Hs as [|p l Hs IH Hp]; simpl; constructor.
    + apply IH. now inversion Hinv.
    + inversion Hinv as [|? ? Hpe Hle]; subst.
      each_row m Hm. apply in_map_iff in Hm. destruct Hm as (p' & <- & Hin).
      rewrite Forall_forall in Hp, Hle. specialize (Hp p' Hin).
      rewrite Hpe, (Hle p' Hin) in Hp. unfold cs in Hp. now rewrite !row_total in Hp.
Qed.

(** X12.  When the category table is built, its rows are the markets
    present, largest market first; its columns are the sorted categories
    without cross_border_investment; and each cell counts the articles of
    its market and category, the "other" cell counting the cross-border
    articles of the market as well. *)
Theorem category_market_cells (df : DataFrame) (ct : CountFrame) :
  category_market df = Ok ct ->
  Permutation (index ct) (Pd.group_keys (map market_name df))
  /\ StronglySorted (fun a b => market_size df b <= market_size df a) (index ct)
  /\ columns ct
     = List.filter (fun c => negb (String.eqb c "cross_border_investment"))
                   (Pd.group_keys (map category df))
  /\ cells ct = map (fun m => map (folded_count df m) (columns ct)) (index ct).
Proof.
  intros Hok. pose proof (category_market_total df) as Htot. rewrite Hok in Htot.
  destruct Htot as (_ & _ & Hperm & _).
  destruct (by_row_total_rows df) as [Hcells Hsorted].
  unfold category_market, combine_cross_border in Hok.
  set (ct0 := by_row_total (crosstab df)) in *.
  assert (columns ct0 = Pd.group_keys (map category df)) as Hcols by reflexivity.
  pose proof (group_keys_NoDup (map category df)) as Hn.
  assert (forall c, In c (Pd.group_keys (map category df)) <-> In c (map category df))
    as Hin_cs by (intros c; apply group_keys_In).
  set (cs := Pd.group_keys (map category df)) in *.
  clearbody ct0 cs.
  destruct (Py.contains (columns ct0) "cross_border_investment") eqn:Hc.
  - unfold get_column, set_column, drop_column in Hok. rewrite Hcols in Hok.
    destruct (get_loc cs "other") as [i|e] eqn:Ei; cbn [Py.bind] in Hok; [|discriminate].
    destruct (get_loc cs "cross_border_investment") as [j|e] eqn:Ej;
      cbn [Py.bind] in Hok; [|discriminate].
    cbn [columns] in Hok. rewrite Ej in Hok.
    cbn [Py.bind index columns cells] in Hok. injection Hok as <-.
    cbn [index columns cells]. split; [exact Hperm|]. split; [exact Hsorted|].
    split; [now apply remove_nth_filter|].
    rewrite Hcells. unfold add_columns.
    repeat (rewrite combine_map_both || rewrite map_map).
    cbn [fst snd]. apply map_ext. intros m.
    rewrite (nth_map_loc _ _ _ _ Ei), (nth_map_loc _ _ _ _ Ej).
    rewrite (set_nth_map_loc _ _ _ _ _ Hn Ei), remove_nth_map.
    apply map_ext_in. intros c Hin. unfold folded_count.
    destruct (String.eqb_spec c "other") as [->|]; lia.
  - injection Hok as <-. split; [exact Hperm|]. split; [exact Hsorted|].
    apply contains_false in Hc. rewrite Hcols in Hc.
    assert (List.filter (fun c => negb (String.eqb c "cross_border_investment")) cs = cs)
      as Hf.
    { apply filter_all. intros c Hin.
      destruct (String.eqb_spec c "cross_border_investment") as [->|]; [contradiction|reflexivity]. }
    split; [now rewrite Hf|]. rewrite Hcells, Hcols. apply map_ext. intros m.
    apply map_ext. intros c. unfold folded_count.
    rewrite (cell_count_absent df m "cross_border_investment"), Tauto.if_same; [lia|].
    now rewrite <- Hin_cs.
Qed.

(** X12 at work: two Japanese articles, one cross-border and one "other". *)
Lemma category_market_cells_witness :
  let df := [sample "Foreign ownership cap" "Japan" "cross_border_investment" 6 "medium";
             sample "Stamp duty change" "Japan" "other" 4 "low"] in
  let ct := mkCounts ["Japan"] ["other"] [[2]] in
  Permutation (index ct) (Pd.group_keys (map market_name df))
  /\ StronglySorted (fun a b => market_size df b <= market_size df a) (index ct)
  /\ columns ct
     = List.filter (fun c => negb (String.eqb c "cross_border_investment"))
                   (Pd.group_keys (map category df))
  /\ cells ct = map (fun m => map (folded_count df m) (columns ct)) (index ct).
Proof.
  intros df ct. apply (category_market_cells df ct). reflexivity.
Defined.

(** ** The map records *)

Lemma map_record_fields (df : DataFrame) (m : string) (rec : Geo.summary) :
  map_record df m = Ok rec ->
  Geo.market rec = m
  /\ Py.getitem country_iso m = Ok (Geo.iso_code rec)
  /\ Geo.article_count rec = market_size df m
  /\ Geo.high_impact_count rec
     = List.length (List.filter is_high (List.filter (in_market m) df))
  /\ Geo.avg_relevance rec
     = Pd.round1 (Pd.mean (map relevance_score (List.filter (in_market m) df))).
Proof.
  unfold map_record.
  destruct (top_regulator_of _) as [reg|e]; cbn [Py.bind]; [|discriminate].
  destruct (top_category_of _) as [cat|e]; cbn [Py.bind]; [|discriminate].
  destruct (Py.getitem country_iso m) as [iso|e]; cbn [Py.bind]; [|discriminate].
  intros [= <-]. cbn. auto.
Qed.

Lemma for_each_Forall2 {A B} (body : A -> result B) (items : list A) (ys : list B) :
  Py.for_each body items = Ok ys -> Forall2 (fun x y => body x = Ok y) items ys.
Proof.
  intros H. pose proof (for_each_spec body items) as Hs. rewrite H in Hs. exact Hs.
Qed.

Lemma Forall2_impl_In {A B} (P Q : A -> B -> Prop) (l : list A) (l' : list B) :
  (forall x y, In x l -> P x y -> Q x y) -> Forall2 P l l' -> Forall2 Q l l'.
Proof.
  intros H HF. induction HF as [|x y l l' Hxy _ IH]; constructor.
  - apply H; [now left|exact Hxy].
  - apply IH. intros x' y' Hx'. apply H. now right.
Qed.

Lemma Forall2_map_eq {A B C} (f : A -> C) (g : B -> C) (l : list A) (l' : list B) :
  Forall2 (fun x y => g y = f x) l l' -> map g l' = map f l.
Proof. induction 1; simpl; congruence. Qed.

(** X13.  When every market of the filtered frame is one of the five, the
    map gets one record per market, in order of first appearance, each with
    the market's code, its number of articles (at least one) and its number
    of high-impact articles (no more than that); the article counts add up
    to the size of the filtered frame. *)
Theorem map_data_records (df : DataFrame) :
  Forall (fun r => In (market_name r) (map fst country_iso)) df ->
  exists records,
    map_data df = Ok records
    /\ map Geo.market records = Pd.unique (map market_name df)
    /\ Forall (fun rec =>
                 Py.getitem country_iso (Geo.market rec) = Ok (Geo.iso_code rec)
                 /\ Geo.article_count rec = market_size df (Geo.market rec)
                 /\ 1 <= Geo.article_count rec
                 /\ Geo.high_impact_count rec <= Geo.article_count rec) records
    /\ Pd.sum_nat (map Geo.article_count records) = List.length df.
Proof.
  intros Hall. pose proof (map_data_spec df) as Hs.
  destruct (map_data df) as [records|e] eqn:E.
  2:{ destruct Hs as (m & _ & Hm & Hnot). exfalso. apply Hnot.
      apply in_map_iff in Hm. destruct Hm as (r & <- & Hr).
      rewrite Forall_forall in Hall. now apply Hall. }
  exists records. destruct Hs as [Hmk _]. split; [reflexivity|]. split; [exact Hmk|].
  unfold map_data in E. apply for_each_Forall2 in E.
  assert (Forall2 (fun m rec => Geo.market rec = m
                                /\ Py.getitem country_iso m = Ok (Geo.iso_code rec)
                                /\ Geo.article_count rec = market_size df m
                                /\ 1 <= market_size df m
                                /\ Geo.high_impact_count rec <= market_size df m)
                  (Pd.unique (map market_name df)) records) as HF.
  { eapply Forall2_impl_In; [|exact E]. cbv beta. intros m rec Hm Hrec.
    apply (proj1 (unique_In _ _)) in Hm.
    destruct (map_record_fields df m rec Hrec) as (H1 & H2 & H3 & H4 & _).
    repeat split; try assumption.
    - now apply in_market_rows.
    - rewrite H4. apply Subseq_length, Subseq_filter. }
  split.
  - clear -HF. induction HF as [|m rec ms recs (H1 & H2 & H3 & H4 & H5) _ IH];
      constructor; [|exact IH].
    subst m. rewrite H3. auto.
  - transitivity (Pd.sum_nat (map (market_size df) (Pd.unique (map market_name df)))).
    + f_equal. apply (Forall2_map_eq (market_size df) Geo.article_count).
      eapply Forall2_impl; [|exact HF]. intros m rec H. cbv beta in *. tauto.
    + apply (count_by_key market_name); [apply unique_NoDup|].
      each_row r Hr. apply unique_In. now apply in_map.
Qed.

(** X13 at work: one article for Japan. *)
Lemma map_data_records_witness :
  exists records,
    map_data [sample "BoJ ends negative rates" "Japan" "monetary_policy" 9 "high"] = Ok records
    /\ map Geo.market records
       = Pd.unique (map market_name
                        [sample "BoJ ends negative rates" "Japan" "monetary_policy" 9 "high"])
    /\ Forall (fun rec =>
                 Py.getitem country_iso (Geo.market rec) = Ok (Geo.iso_code rec)
                 /\ Geo.article_count rec
                    = market_size [sample "BoJ ends negative rates" "Japan" "monetary_policy" 9 "high"]
                                  (Geo.market rec)
                 /\ 1 <= Geo.article_count rec
                 /\ Geo.high_impact_count rec <= Geo.article_count rec) records
    /\ Pd.sum_nat (map Geo.article_count records)
       = List.length [sample "BoJ ends negative rates" "Japan" "monetary_policy" 9 "high"].
Proof.
  apply map_data_records.
  apply Forall_cons; [|apply Forall_nil]. simpl. tauto.
Defined.

(** ** Counting mentions *)

Lemma counted_counter_add (x : string) (c : list (string * nat)) (k : string) :
  counted (Pd.counter_add x c) k = counted c k + (if String.eqb x k then 1 else 0).
Proof.
  unfold counted. induction c as [|[k' n] c IH]; simpl.
  - destruct (String.eqb x k); reflexivity.
  - destruct (String.eqb_spec x k') as [Hx|Hx]; simpl;
      destruct (String.eqb_spec k' k) as [Hk|Hk]; simpl.
    + subst. rewrite String.eqb_refl. lia.
    + subst. apply String.eqb_neq in Hk. rewrite Hk. lia.
    + subst. apply String.eqb_neq in Hx. rewrite Hx. lia.
    + exact IH.
Qed.

Lemma counted_Counter (xs : list string) (k : string) :
  counted (Pd.Counter xs) k = mentions xs k.
Proof.
  unfold Pd.Counter, mentions.
  assert (forall ys c, counted (fold_left (fun c x => Pd.counter_add x c) ys c) k
                       = counted c k + count_occ string_dec ys k) as H.
  { induction ys as [|y ys IH]; intros c; simpl; [lia|].
    rewrite IH, counted_counter_add.
    destruct (string_dec y k) as [->|Hne].
    - rewrite String.eqb_refl. lia.
    - apply String.eqb_neq in Hne. rewrite Hne. lia. }
  now rewrite H.
Qed.

Lemma counter_add_key_In (x : string) (c : list (string * nat)) (k : string) :
  In k (map fst (Pd.counter_add x c)) -> k = x \/ In k (map fst c).
Proof.
  induction c as [|[k' n] c IH]; simpl.
  - intros [<-|[]]. now left.
  - destruct (String.eqb_spec x k') as [->|Hx]; simpl.
    + intros H. now right.
    + intros [<-|H]; [right; now left|].
      destruct (IH H) as [->|Hin]; [now left|right; now right].
Qed.

Lemma counter_add_keys (x : string) (c : list (string * nat)) :
  NoDup (map fst c) -> NoDup (map fst (Pd.counter_add x c)).
Proof.
  induction c as [|[k' n] c IH]; simpl; intros Hn.
  - constructor; [intros []|constructor].
  - inversion Hn as [|? ? Hnot Hn']; subst.
    destruct (String.eqb_spec x k') as [->|Hx]; simpl; [now constructor|].
    constructor; [|now apply IH].
    intros Hin. apply counter_add_key_In in Hin.
    destruct Hin as [E|E]; [congruence|contradiction].
Qed.

Lemma Counter_keys (xs : list string) : NoDup (map fst (Pd.Counter xs)).
Proof.
  unfold Pd.Counter.
  assert (forall ys c, NoDup (map fst c) ->
            NoDup (map fst (fold_left (fun c x => Pd.counter_add x c) ys c))) as H.
  { induction ys as [|y ys IH]; intros c Hc; simpl; [exact Hc|].
    apply IH, counter_add_keys, Hc. }
  apply H. constructor.
Qed.

Lemma counted_In (c : list (string * nat)) (k : string) (n : nat) :
  NoDup (map fst c) -> In (k, n) c -> counted c k = n.
Proof.
  unfold counted. induction c as [|[k' n'] c IH]; simpl; intros Hn Hin; [destruct Hin|].
  inversion Hn as [|? ? Hnot Hn']; subst.
  destruct Hin as [[= -> ->]|Hin].
  - now rewrite String.eqb_refl.
  - destruct (String.eqb_spec k' k) as [->|Hne]; [|now apply IH].
    exfalso. apply Hnot. now apply (in_map fst) in Hin.
Qed.

Lemma counted_positive_In (c : list (string * nat)) (k : string) :
  0 < counted c k -> In (k, counted c k) c.
Proof.
  unfold counted. destruct (find _ c) as [[k' n]|] eqn:E; simpl; [|lia].
  intros _. apply find_some in E. destruct E as [Hin Heq]. simpl in Heq.
  apply String.eqb_eq in Heq. now subst.
Qed.

Lemma first_max_spec (best : string * nat) (items : list (string * nat)) :
  In (Pd.first_max best items) (best :: items)
  /\ Forall (fun kv => snd kv <= snd (Pd.first_max best items)) (best :: items).
Proof.
  revert best. induction items as [|kv items IH]; intros best; simpl.
  - split; [now left|]. repeat constructor.
  - destruct (Nat.ltb_spec (snd best) (snd kv)) as [Hlt|Hge].
    + destruct (IH kv) as [Hin Hall]. split; [now right|].
      inversion Hall as [|? ? Hkv Hrest]; subst.
      constructor; [lia|]. now constructor.
    + destruct (IH best) as [Hin Hall]. split.
      * destruct Hin as [<-|Hin]; [now left|now right; right].
      * inversion Hall as [|? ? Hb Hrest]; subst.
        constructor; [exact Hb|]. constructor; [lia|exact Hrest].
Qed.

(** X14.  The top regulator of a market is "N/A" when none of its rows
    lists a regulator; otherwise it names a regulator that the rows mention
    at least as often as any other, with the number of its mentions. *)
Theorem top_regulator_most_mentioned (market_df : DataFrame) :
  match all_regs market_df with
  | [] => top_regulator_of market_df = Ok "N/A"
  | _ :: _ =>
      exists name,
        In name (all_regs market_df)
        /\ top_regulator_of market_df
           = Ok (name ++ " (" ++ str_of_nat (mentions (all_regs market_df) name)
                      ++ " mentions)")%string
        /\ forall other, mentions (all_regs market_df) other
                          <= mentions (all_regs market_df) name
  end.
Proof.
  unfold top_regulator_of. destruct (all_regs market_df) as [|x regs] eqn:E; [reflexivity|].
  set (xs := x :: regs) in *.
  pose proof (Counter_nonempty xs ltac:(discriminate)) as Hne.
  pose proof (Counter_keys xs) as Hkeys.
  destruct (Pd.Counter xs) as [|kv rest] eqn:Ec; [congruence|].
  cbn [Pd.most_common_1 first_item Py.bind].
  destruct (first_max_spec kv rest) as [Hin Hmax].
  set (top := Pd.first_max kv rest) in *.
  assert (snd top = mentions xs (fst top)) as Htop.
  { rewrite <- counted_Counter, Ec. symmetry. apply counted_In; [exact Hkeys|].
    now destruct top. }
  assert (forall other, mentions xs other <= mentions xs (fst top)) as Hall.
  { intros other. rewrite <- Htop.
    destruct (Nat.eq_dec (mentions xs other) 0) as [->|Hpos]; [lia|].
    rewrite <- counted_Counter in Hpos |- *.
    pose proof (counted_positive_In (Pd.Counter xs) other ltac:(lia)) as Ho.
    rewrite Ec in Ho. rewrite Forall_forall in Hmax.
    rewrite Ec. apply (Hmax _ Ho). }
  exists (fst top). split; [|split; [now rewrite Htop|exact Hall]].
  assert (1 <= mentions xs x) as Hx.
  { unfold mentions, xs. simpl. destruct (string_dec x x); [lia|congruence]. }
  apply (count_occ_In string_dec). specialize (Hall x). unfold mentions in *. lia.
Qed.


(** ** Rounding the mean *)

Lemma round_half_even_close (n : Z) (d : positive) :
  (- Z.pos d <= 2 * (Pd.round_half_even (Qmake n d) * Z.pos d - n) <= Z.pos d)%Z.
Proof.
  unfold Pd.round_half_even. cbn [Qnum Qden].
  pose proof (Z.div_mod n (Z.pos d) ltac:(lia)) as Hdm.
  pose proof (Z.mod_pos_bound n (Z.pos d) ltac:(lia)) as Hb.
  destruct (Z.compare_spec (2 * (n mod Z.pos d)) (Z.pos d)) as [E|L|G].
  - destruct (Z.even (n / Z.pos d)); nia.
  - nia.
  - nia.
Qed.

(** X16.  The mean relevance shown on the map is a number of tenths that
    differs from the exact mean by at most one twentieth; the mean of no
    value stays NaN. *)
Theorem round1_within_a_twentieth (x : option Q) :
  match x, Pd.round1 x with
  | Some q, Some r =>
      (exists tenths, r = Qmake tenths 10) /\ (Qabs (r - q) <= 1 # 20)%Q
  | None, None => True
  | _, _ => False
  end.
Proof.
  destruct x as [[n d]|]; cbn [Pd.round1]; [|exact I].
  split; [eexists; reflexivity|].
  pose proof (round_half_even_close (n * 10) (d * 1)) as H.
  change (Qmake n d * 10)%Q with (Qmake (n * 10) (d * 1)).
  set (z := Pd.round_half_even (Qmake (n * 10) (d * 1))) in *.
  apply Qabs_Qle_condition. rewrite Pos.mul_1_r in H.
  unfold Qle, Qminus, Qplus, Qopp. cbn [Qnum Qden]. split; nia.
Qed.

(** ** The curated table *)

Lemma in_table (rows : list CleanRow) (r : CleanRow) :
  In r (List.concat (top_articles_list rows)) ->
  exists m, In m market_order /\ In r (market_top rows m).
Proof.
  unfold top_articles_list. rewrite top_articles_from_map. intros H.
  apply in_concat in H. destruct H as (g & Hg & Hr).
  apply in_map_iff in Hg. destruct Hg as (m & <- & Hm).
  apply filter_In in Hm. exists m. tauto.
Qed.

Lemma market_top_In (rows : list CleanRow) (m : string) (r : CleanRow) :
  In r (market_top rows m) -> In r rows /\ market_name (article r) = m.
Proof.
  intros H. apply nlargest_In, filter_In in H. destruct H as [Hr Hm].
  split; [exact Hr|]. now apply String.eqb_eq in Hm.
Qed.

(** X17.  Every row of the table is a row of the filtered frame, of one of
    the five markets, from a source that is not on the excluded list, and
    carries the normalised form of its own title. *)
Theorem table_rows_curated (df : DataFrame) :
  Forall (fun r => In (article r) df
                   /\ In (market_name (article r)) market_order
                   /\ ~ In (source_name (article r)) excluded_sources
                   /\ title_normalized r = normalize_title (title (article r)))
         (table_rows df).
Proof.
  each_row r Hr. unfold table_rows in Hr.
  apply in_table in Hr. destruct Hr as (m & Hm & Hr).
  apply market_top_In in Hr. destruct Hr as [Hr <-].
  unfold curated_rows, exclude_sources in Hr. apply filter_In in Hr.
  destruct Hr as [Hu Hs]. apply negb_true_iff, contains_false in Hs.
  pose proof (df_unique_coherent df) as Hc. rewrite Forall_forall in Hc.
  repeat split; try assumption; [|now apply Hc].
  apply (Subseq_incl _ _ (drop_duplicates_from_Subseq _ _ _)) in Hu.
  unfold df_clean in Hu. apply in_map_iff in Hu. destruct Hu as (a & <- & Ha).
  exact Ha.
Qed.

(** X18.  The rows shown for a market come by relevance, highest first, and
    no row of that market that is left out scores higher than a row that is
    shown. *)
Theorem market_top_dominates (rows : list CleanRow) (m : string) :
  StronglySorted (fun a b => (score b <= score a)%Z) (market_top rows m)
  /\ (forall shown left_out,
        In shown (market_top rows m) ->
        In left_out rows -> market_name (article left_out) = m ->
        ~ In left_out (market_top rows m) ->
        (score left_out <= score shown)%Z).
Proof.
  unfold market_top.
  destruct (nlargest_top 5 score (List.filter (of_market m) rows)) as (rest & Hp & Hs & Hd).
  split; [exact Hs|]. intros x y Hx Hy Hm Hnot. apply Hd; [exact Hx|].
  assert (In y (List.filter (of_market m) rows)) as Hin.
  { apply filter_In. split; [exact Hy|]. unfold of_market, in_market.
    rewrite Hm. apply String.eqb_refl. }
  apply (Permutation_in _ Hp), in_app_or in Hin. tauto.
Qed.

Lemma NoDup_map_Subseq {A B} (f : A -> B) (s l : list A) :
  Subseq s l -> NoDup (map f l) -> NoDup (map f s).
Proof.
  induction 1 as [|x s l Hs IH|x s l Hs IH]; simpl; intros Hn; [constructor| |].
  - inversion Hn as [|? ? Hnot Hn']; subst. constructor; [|now apply IH].
    intros Hin. apply Hnot. apply in_map_iff in Hin. destruct Hin as (y & <- & Hy).
    apply in_map. now apply (Subseq_incl _ _ Hs).
  - inversion Hn; subst. now apply IH.
Qed.

Lemma NoDup_map_inj {A B} (f : A -> B) (l : list A) (x y : A) :
  NoDup (map f l) -> In x l -> In y l -> f x = f y -> x = y.
Proof.
  induction l as [|a l IH]; simpl; intros Hn Hx Hy E; [destruct Hx|].
  inversion Hn as [|? ? Hnot Hn']; subst.
  destruct Hx as [->|Hx], Hy as [->|Hy]; try reflexivity.
  - exfalso. apply Hnot. rewrite E. now apply in_map.
  - exfalso. apply Hnot. rewrite <- E. now apply in_map.
  - now apply IH.
Qed.

Lemma market_top_NoDup (rows : list CleanRow) (m : string) :
  NoDup (map title_normalized rows) -> NoDup (map title_normalized (market_top rows m)).
Proof.
  intros Hn. unfold market_top, Pd.nlargest.
  set (l := Py.sorted _ _).
  assert (NoDup (map title_normalized l)) as Hl.
  { eapply Permutation_NoDup.
    - apply Permutation_map. symmetry. apply sorted_perm.
    - apply (NoDup_map_Subseq _ _ _ (Subseq_filter _ rows) Hn). }
  rewrite <- (firstn_skipn 5 l), map_app in Hl. now apply NoDup_app_remove_r in Hl.
Qed.

Lemma table_NoDup (rows : list CleanRow) :
  NoDup (map title_normalized rows) ->
  NoDup (map title_normalized (List.concat (top_articles_list rows))).
Proof.
  intros Hn. unfold top_articles_list. rewrite top_articles_from_map.
  pose proof market_order_NoDup as Hm.
  assert (NoDup (List.filter (Py.contains (map (fun r => market_name (article r)) rows))
                             market_order)) as Hms
    by (apply NoDup_filter, Hm).
  induction Hms as [|m ms Hnot Hms IH]; simpl; [constructor|].
  rewrite map_app. apply NoDup_app; [|exact IH|].
  - now apply market_top_NoDup.
  - intros k Hk1 Hk2.
    apply in_map_iff in Hk1. destruct Hk1 as (x & Hkx & Hx).
    apply in_map_iff in Hk2. destruct Hk2 as (y & Hky & Hy).
    apply in_concat in Hy. destruct Hy as (g & Hg & Hy).
    apply in_map_iff in Hg. destruct Hg as (m' & <- & Hm').
    apply market_top_In in Hx, Hy. destruct Hx as [Hx Hxm], Hy as [Hy Hym].
    assert (x = y) as E
      by (apply (NoDup_map_inj title_normalized rows); congruence).
    apply Hnot. congruence.
Qed.

(** X19.  No two rows of the table have the same normalised title: the
    deduplication survives the exclusion of sources and the per-market
    selection. *)
Theorem table_rows_distinct_titles (df : DataFrame) :
  NoDup (map title_normalized (table_rows df)).
Proof.
  unfold table_rows. apply table_NoDup. unfold curated_rows, exclude_sources.
  apply (NoDup_map_Subseq _ _ _ (Subseq_filter _ _)).
  apply drop_duplicates_from_NoDup.
Qed.

Lemma market_colors_known (m : string) :
  In m market_order -> exists c, Py.getitem market_colors m = Ok c.
Proof.
  unfold market_order. simpl.
  intros [<-|[<-|[<-|[<-|[<-|[]]]]]]; eexists; reflexivity.
Qed.

Lemma for_each_all_ok {A B} (body : A -> result B) (items : list A) :
  Forall (fun x => exists y, body x = Ok y) items ->
  exists ys, Py.for_each body items = Ok ys /\ List.length ys = List.length items.
Proof.
  induction 1 as [|x items [y Hy] _ (ys & IH & Hlen)]; simpl.
  - exists []. auto.
  - rewrite Hy, IH. simpl. exists (y :: ys). simpl. auto.
Qed.

Lemma concat_length_bound {A} (n : nat) (groups : list (list A)) :
  Forall (fun g => List.length g <= n) groups ->
  List.length (List.concat groups) <= n * List.length groups.
Proof.
  induction 1 as [|g groups Hg _ IH]; simpl; [lia|].
  rewrite length_app. lia.
Qed.

Lemma table_colors_ok (rows : list CleanRow) :
  exists fill,
    table_colors (List.concat (top_articles_list rows)) = Ok fill
    /\ List.length fill = List.length (List.concat (top_articles_list rows)).
Proof.
  unfold table_colors.
  destruct (for_each_all_ok (getitem market_colors)
              (map (fun r => market_name (article r))
                   (List.concat (top_articles_list rows)))) as (fill & Hf & Hlen).
  - each_row m Hm. apply in_map_iff in Hm. destruct Hm as (r & <- & Hr).
    apply in_table in Hr. destruct Hr as (m & Hm & Hr).
    apply market_top_In in Hr. destruct Hr as [_ ->]. now apply market_colors_known.
  - exists fill. split; [exact Hf|]. now rewrite Hlen, length_map.
Qed.

(** X20.  Whatever rows reach it, the table has at most 25 rows, and the
    colour of each of its rows is found: building the table never ends in
    a [KeyError]. *)
Theorem table_at_most_25_and_coloured (rows : list CleanRow) :
  List.length (List.concat (top_articles_list rows)) <= 25
  /\ exists fill,
       table_colors (List.concat (top_articles_list rows)) = Ok fill
       /\ List.length fill = List.length (List.concat (top_articles_list rows)).
Proof.
  split; [|apply table_colors_ok].
  unfold top_articles_list. rewrite top_articles_from_map.
  set (ms := List.filter _ market_order).
  assert (List.length ms <= 5) as Hms.
  { unfold ms. apply (Subseq_length _ _ (Subseq_filter _ market_order)). }
  pose proof (concat_length_bound 5 (map (market_top rows) ms)) as H.
  rewrite length_map in H.
  assert (Forall (fun g => List.length g <= 5) (map (market_top rows) ms)) as Hg.
  { each_row g Hg. apply in_map_iff in Hg. destruct Hg as (m & <- & _).
    unfold market_top. rewrite nlargest_length. lia. }
  specialize (H Hg). lia.
Qed.

(** X21.  The "No articles match" message replaces the table exactly when
    no row is of one of the five markets (so, in particular, when there is
    no row); otherwise the table has at least one row. *)
Theorem top_articles_none_iff (rows : list CleanRow) :
  match top_articles rows with
  | None => Forall (fun r => ~ In (market_name (article r)) market_order) rows
  | Some t =>
      t = List.concat (top_articles_list rows) /\ t <> []
      /\ exists r, In r rows /\ In (market_name (article r)) market_order
  end.
Proof.
  unfold top_articles.
  pose proof (top_articles_from_map market_order rows) as Hmap.
  fold (top_articles_list rows) in Hmap.
  destruct (top_articles_list rows) as [|g groups] eqn:E.
  - each_row r Hr. intros Hm.
    assert (In (market_name (article r))
               (List.filter (Py.contains (map (fun r => market_name (article r)) rows))
                            market_order)) as Hin.
    { apply filter_In. split; [exact Hm|]. apply contains_In.
      now apply (in_map (fun r => market_name (article r))). }
    symmetry in Hmap. apply map_eq_nil in Hmap. rewrite Hmap in Hin. destruct Hin.
  - split; [reflexivity|].
    assert (In g (map (market_top rows)
                      (List.filter (Py.contains (map (fun r => market_name (article r)) rows))
                                   market_order))) as Hg
      by (rewrite <- Hmap; now left).
    apply in_map_iff in Hg. destruct Hg as (m & <- & Hm).
    apply filter_In in Hm. destruct Hm as [Hm Hp].
    apply contains_In, in_map_iff in Hp. destruct Hp as (r & <- & Hr).
    split; [|exists r; now split].
    assert (1 <= List.length (market_top rows (market_name (article r)))) as Hlen.
    { unfold market_top. rewrite nlargest_length.
      assert (In r (List.filter (of_market (market_name (article r))) rows)) as Hin.
      { apply filter_In. split; [exact Hr|]. apply String.eqb_refl. }
      destruct (List.filter _ rows); [destruct Hin|simpl; lia]. }
    simpl. destruct (market_top rows (market_name (article r))); simpl in *; [lia|discriminate].
Qed.

(** ** Title normalisation *)

Lemma kept_char_lower (c : ascii) : kept_in_title c = true -> char_lower c = c.
Proof.
  destruct c as [[] [] [] [] [] [] [] []]; intros H; try reflexivity; discriminate H.
Qed.

Lemma char_lower_idem (c : ascii) : char_lower (char_lower c) = char_lower c.
Proof. destruct c as [[] [] [] [] [] [] [] []]; reflexivity. Qed.

(** X22.  Normalising a title that is already normalised changes nothing,
    and a title and its lowercase form have the same normalisation: rows
    whose titles differ only in case or in the removed characters are
    duplicates of one another. *)
Theorem normalize_title_idempotent (t : string) :
  normalize_title (normalize_title t) = normalize_title t
  /\ normalize_title (lower t) = normalize_title t.
Proof.
  unfold normalize_title, lower. split.
  - induction t as [|c t IH]; simpl; [reflexivity|].
    destruct (kept_in_title (char_lower c)) eqn:E; simpl; [|exact IH].
    rewrite (kept_char_lower _ E), E, IH. reflexivity.
  - induction t as [|c t IH]; simpl; [reflexivity|].
    now rewrite char_lower_idem, IH.
Qed.

(** ** A whole run *)

Lemma key_insights_empty (df : DataFrame) (shown : list Metric) :
  snd (key_insights df [] shown) = Raise ZeroDivisionError.
Proof. destruct df; reflexivity. Qed.

Lemma marker_color_raise (df : DataFrame) (e : exn) :
  marker_color df = Raise e ->
  exists m, e = KeyError m /\ In m (map market_name df) /\ ~ In m market_order.
Proof.
  unfold marker_color. intros H.
  pose proof (for_each_spec (getitem market_colors)
                            (map Overview.market (market_overview df))) as Hs.
  rewrite H in Hs. cbn [Py.is_ok] in Hs. destruct Hs as (m & Hm & He).
  pose proof (getitem_spec market_colors m) as Hg. rewrite He in Hg.
  destruct Hg as [-> Hnot]. exists m. split; [reflexivity|]. split.
  - apply (group_keys_In (map market_name df)).
    now apply (Permutation_in _ (market_overview_markets df)).
  - intros Hin. apply Hnot. unfold market_order in Hin. simpl in *. tauto.
Qed.

Lemma box_colors_is_ok (df : DataFrame) :
  Py.is_ok (box_colors df) = Py.is_ok (marker_color df).
Proof.
  unfold box_colors, marker_color. rewrite !for_each_is_ok.
  apply forallb_perm. rewrite relevance_order_perm. symmetry.
  apply market_overview_markets.
Qed.

(** X23.  A run goes through the cards and the four tabs without an
    exception exactly when the filter leaves at least one row, every market
    left is one of the five, and cross-border articles come with at least
    one article of category "other".  Otherwise it ends, in this order of
    precedence, in [ZeroDivisionError] (no row), in a [KeyError] on a market
    that is not one of the five, or in [KeyError: 'other']. *)
Theorem dashboard_outcome (df : DataFrame) (fs : FilterState) :
  let f := df_filtered fs df in
  match snd (dashboard df fs []) with
  | Ok v =>
      f <> []
      /\ Forall (fun r => In (market_name r) market_order) f
      /\ (In "cross_border_investment" (map category f) -> In "other" (map category f))
      /\ bars v = market_overview f
      /\ category_market f = Ok (categories v)
      /\ map_data f = Ok (map_records v)
      /\ table v = curated f
  | Raise e =>
      (f = [] /\ e = ZeroDivisionError)
      \/ (f <> []
          /\ exists m, e = KeyError m /\ In m (map market_name f) /\ ~ In m market_order)
      \/ (f <> []
          /\ Forall (fun r => In (market_name r) market_order) f
          /\ e = KeyError "other"
          /\ In "cross_border_investment" (map category f)
          /\ ~ In "other" (map category f))
  end.
Proof.
  intros f. unfold dashboard, sbind. fold f.
  destruct f as [|a rest] eqn:Ef.
  { pose proof (key_insights_empty df []) as H.
    destruct (key_insights df [] []) as [shown [u|e]]; simpl in *; [discriminate|].
    injection H as ->. left. auto. }
  rewrite <- Ef. assert (f <> []) as Hne by (rewrite Ef; discriminate).
  assert (df <> []) as Hdf.
  { intros ->. unfold f, df_filtered in Ef. discriminate Ef. }
  destruct (key_insights_nonempty df f [] Hdf Hne) as (cards & -> & _).
  unfold lift. cbn [snd]. unfold tabs.
  destruct (marker_color f) as [fill|e] eqn:Emc; cbn [Py.bind].
  2:{ right. left. split; [exact Hne|]. now apply marker_color_raise. }
  assert (Forall (fun r => In (market_name r) market_order) f) as Hfive
    by (apply marker_color_markets; now rewrite Emc).
  pose proof (box_colors_is_ok f) as Hbox. rewrite Emc in Hbox.
  destruct (box_colors f) as [boxfill|e]; [|discriminate]. cbn [Py.bind].
  pose proof (category_market_total f) as Hcm.
  destruct (category_market f) as [cm|e]; cbn [Py.bind].
  2:{ right. right. destruct Hcm as (-> & Hc & Ho). auto. }
  pose proof (map_data_spec f) as Hmd.
  destruct (map_data f) as [records|e]; cbn [Py.bind].
  2:{ exfalso. destruct Hmd as (m & _ & Hm & Hnot). apply Hnot.
      apply in_map_iff in Hm. destruct Hm as (r & <- & Hr).
      rewrite Forall_forall in Hfive. specialize (Hfive r Hr).
      unfold market_order in Hfive. simpl in *. tauto. }
  assert (exists fill', match curated f with
                        | Some rows => table_colors rows
                        | None => Ok []
                        end = Ok fill') as [fill' ->].
  { unfold curated, top_articles.
    destruct (table_colors_ok (exclude_sources (df_unique f))) as (fill' & Hf & _).
    destruct (top_articles_list (exclude_sources (df_unique f))); eauto. }
  cbn [Py.bind bars categories map_records table].
  destruct Hcm as (_ & _ & _ & Hother). auto 10.
Qed.

(** ** The order of the rows *)

Lemma filter_perm {A} (f : A -> bool) (l l' : list A) :
  Permutation l l' -> Permutation (List.filter f l) (List.filter f l').
Proof.
  induction 1 as [|x l l' _ IH|x y l|l l' l'' _ IH1 _ IH2]; simpl.
  - constructor.
  - destruct (f x); [now constructor|exact IH].
  - destruct (f x), (f y); try reflexivity. apply perm_swap.
  - now transitivity (List.filter f l').
Qed.

Lemma sum_Z_perm (l l' : list Z) : Permutation l l' -> Pd.sum_Z l = Pd.sum_Z l'.
Proof. induction 1; simpl; lia. Qed.

Lemma mean_perm (l l' : list Z) : Permutation l l' -> Pd.mean l = Pd.mean l'.
Proof.
  intros H. pose proof (Permutation_length H) as Hlen.
  pose proof (sum_Z_perm _ _ H) as Hsum. unfold Pd.mean.
  destruct l as [|x l], l' as [|y l']; try discriminate Hlen; [reflexivity|].
  now rewrite Hsum, Hlen.
Qed.

Lemma sorted_perm_unique {A} (R : A -> A -> Prop) (l l' : list A) :
  (forall a b, R a b -> R b a -> a = b) ->
  StronglySorted R l -> StronglySorted R l' -> Permutation l l' -> l = l'.
Proof.
  intros Hanti Hs. revert l'. induction Hs as [|a l Hs IH Ha]; intros l' Hs' Hp.
  - apply Permutation_nil in Hp. now subst.
  - destruct Hs' as [|b l' Hs' Hb].
    + apply Permutation_sym, Permutation_nil in Hp. discriminate Hp.
    + assert (a = b) as ->.
      { rewrite Forall_forall in Ha, Hb.
        assert (In a (b :: l')) as [E|Hin] by (apply (Permutation_in _ Hp); now left);
          [now subst|].
        assert (In b (a :: l)) as [E|Hin'];
          [apply (Permutation_in _ (Permutation_sym Hp)); now left|now subst|].
        apply Hanti; [now apply Ha|now apply Hb]. }
      f_equal. apply IH; [exact Hs'|]. now apply Permutation_cons_inv in Hp.
Qed.

Lemma group_keys_perm (xs ys : list string) :
  Permutation xs ys -> Pd.group_keys xs = Pd.group_keys ys.
Proof.
  intros Hp.
  apply (sorted_perm_unique (fun a b => String.leb a b = true)).
  - apply String.leb_antisym.
  - apply group_keys_sorted.
  - apply group_keys_sorted.
  - apply NoDup_Permutation; try apply group_keys_NoDup.
    intros x. rewrite !group_keys_In.
    split; apply Permutation_in; [|symmetry]; exact Hp.
Qed.

(** X24.  The market summary and the category table do not depend on the
    order of the rows of the filtered frame. *)
Theorem summaries_ignore_row_order (df df' : DataFrame) :
  Permutation df df' ->
  market_overview df = market_overview df'
  /\ category_market df = category_market df'.
Proof.
  intros Hp.
  pose proof (group_keys_perm _ _ (Permutation_map market_name Hp)) as Hm.
  pose proof (group_keys_perm _ _ (Permutation_map category Hp)) as Hc.
  split.
  - unfold market_overview, market_groups. rewrite Hm. f_equal.
    apply map_ext. intros m. cbv zeta.
    pose proof (Permutation_map relevance_score (filter_perm (in_market m) _ _ Hp)) as Hs.
    now rewrite (Permutation_length Hs), (mean_perm _ _ Hs).
  - unfold category_market, crosstab. rewrite Hm, Hc. do 3 f_equal.
    apply map_ext. intros m. apply map_ext. intros c. unfold cell_count.
    apply Permutation_length, filter_perm, Hp.
Qed.

(** X24 at work: two rows, swapped. *)
Lemma summaries_ignore_row_order_witness :
  let a := sample "BoJ ends negative rates" "Japan" "monetary_policy" 9 "high" in
  let b := sample "Fed holds rates" "United States" "other" 7 "high" in
  market_overview [a; b] = market_overview [b; a]
  /\ category_market [a; b] = category_market [b; a].
Proof.
  intros a b. apply summaries_ignore_row_order. apply perm_swap.
Defined.

(** ** Deduplication before exclusion *)

(** X25.  The sources are excluded after the deduplication: when the first
    row with some normalised title comes from an excluded source, no row
    with that title reaches the table, even if a later duplicate comes from
    another source. *)
Theorem excluded_first_occurrence_hides_title (df : DataFrame) (first : CleanRow) :
  find (has_normalized (title_normalized first)) (df_clean df) = Some first ->
  In (source_name (article first)) excluded_sources ->
  ~ In (title_normalized first) (map title_normalized (table_rows df)).
Proof.
  intros Hfind Hex Hin.
  apply in_map_iff in Hin. destruct Hin as (r & Hk & Hr).
  unfold table_rows in Hr. apply in_table in Hr. destruct Hr as (m & _ & Hr).
  apply market_top_In in Hr. destruct Hr as [Hr _].
  unfold curated_rows, exclude_sources in Hr. apply filter_In in Hr.
  destruct Hr as [Hu Hs]. apply negb_true_iff, contains_false in Hs.
  assert (find (has_normalized (title_normalized first)) (df_unique df) = Some first) as Hf.
  { rewrite <- Hfind.
    apply (drop_duplicates_from_find title_normalized [] (df_clean df)). intros []. }
  apply find_some in Hf. destruct Hf as [Hfirst _].
  assert (first = r) as ->.
  { apply (NoDup_map_inj title_normalized (df_unique df)); try assumption.
    - apply drop_duplicates_from_NoDup.
    - now symmetry. }
  contradiction.
Qed.

(** X25 at work: a Cointelegraph article first, its Reuters duplicate next. *)
Lemma excluded_first_occurrence_witness :
  let a := mkArticle "SEC sues exchange!" 0 "United States" "other" 9 "high"
                     None "Cointelegraph" "" in
  let b := mkArticle "SEC sues exchange" 0 "United States" "other" 9 "high"
                     None "Reuters" "" in
  ~ In "sec sues exchange" (map title_normalized (table_rows [a; b])).
Proof.
  intros a b.
  apply (excluded_first_occurrence_hides_title [a; b] (mkClean a "sec sues exchange")).
  - reflexivity.
  - simpl. tauto.
Defined.
